(** * QFNUNoticeMonitor: notice store, change detection and OneBot transport

    A shallow embedding of [qfnu_monitor/core/qfnu_jwc_gg.py] and
    [qfnu_monitor/utils/onebot.py].  Python code with side effects is written
    in a small state, exception and trace monad; the outside world (the
    announcement page, the process environment, the HTTP endpoint of the bot
    and the feishu webhook) is a record of oracles. *)

From Stdlib Require Import ZArith String Ascii List.
From stdpp Require Import base gmap sets list strings pretty.

Set Warnings "-register-all".
Open Scope string_scope.
Open Scope list_scope.
Open Scope Z_scope.

(** ** Python values

    The values that [json] produces and that the transport passes around as
    [Dict[str, Any]].  JSON numbers are kept to the integers. *)

Inductive pyval :=
| PNone
| PBool (b : bool)
| PInt (z : Z)
| PStr (s : string)
| PList (l : list pyval)
| PDict (d : gmap string pyval).

(** [type(v).__name__], as it shows up in the text of an [AttributeError]. *)
Definition type_name (v : pyval) : string :=
  match v with
  | PNone => "NoneType"
  | PBool _ => "bool"
  | PInt _ => "int"
  | PStr _ => "str"
  | PList _ => "list"
  | PDict _ => "dict"
  end.

(** [v == s] for a string literal [s]. *)
Definition py_eq_str (v : pyval) (s : string) : bool :=
  match v with
  | PStr t => String.eqb t s
  | _ => false
  end.

(** [str(v)] for the optional strings a notice holds ([None] prints as
    ["None"]). *)
Definition str_opt (o : option string) : string :=
  match o with
  | Some s => s
  | None => "None"
  end.

(** ** Exceptions *)

Inductive exn_class :=
| ValueError
| UnboundLocalError
| AttributeError
| OSError
| UnicodeDecodeError
| JSONDecodeError            (* json.JSONDecodeError *)
| RequestException           (* requests.exceptions.RequestException *)
| ConnectionError            (* requests.exceptions.ConnectionError *)
| Timeout                    (* requests.exceptions.Timeout *)
| RequestsJSONDecodeError    (* requests.exceptions.JSONDecodeError *)
| OtherException.            (* any other subclass of Exception *)

Record exn := Exn { exn_kind : exn_class; exn_str : string }.

(** [isinstance(e, requests.exceptions.RequestException)] *)
Definition is_RequestException (e : exn) : bool :=
  match exn_kind e with
  | RequestException | ConnectionError | Timeout | RequestsJSONDecodeError => true
  | _ => false
  end.

(** [isinstance(e, json.JSONDecodeError)]; the class of [requests] derives
    from both. *)
Definition is_JSONDecodeError (e : exn) : bool :=
  match exn_kind e with
  | JSONDecodeError | RequestsJSONDecodeError => true
  | _ => false
  end.

Inductive outcome (A : Type) :=
| Return (a : A)
| Raise (e : exn).
Arguments Return {A} a.
Arguments Raise {A} e.

Definition raised {A} (o : outcome A) : bool :=
  match o with
  | Return _ => false
  | Raise _ => true
  end.

(** ** Notices and the two store files *)

(** [{"title": ..., "link": ..., "date": ...}]; [link] is the [href]
    attribute, which [get] gives as [None] when the anchor has none. *)
Record Notice := mkNotice {
  title : string;
  link : option string;
  date : string
}.

#[global] Instance Notice_eq_dec : EqDecision Notice.
Proof. solve_decision. Defined.

(** What a store file can be on disk.  [json.load] gives back the list
    [json.dump] wrote; that contract of the library is the constructor
    [Dumped]. *)
Inductive file :=
| Missing                        (* os.path.exists is False *)
| Blank                          (* the file exists and has size zero *)
| Garbled (e : exn)              (* non-empty; open or json.load raises e *)
| Dumped (v : list Notice).      (* the text json.dump(v, f) leaves *)

Inductive path := DataFile | ArchiveFile.

Record store := mkStore {
  data_file : file;
  archive_file : file
}.

Definition set_file (p : path) (f : file) (st : store) : store :=
  match p with
  | DataFile => {| data_file := f; archive_file := archive_file st |}
  | ArchiveFile => {| data_file := data_file st; archive_file := f |}
  end.

(** [os.path.exists(p)] *)
Definition path_exists (f : file) : bool :=
  match f with
  | Missing => false
  | _ => true
  end.

(** [os.path.getsize(p) == 0], for a file that exists. *)
Definition getsize_is_0 (f : file) : bool :=
  match f with
  | Blank => true
  | _ => false
  end.

(** The notice sequence a store file stands for. *)
Definition stored (f : file) : list Notice :=
  match f with
  | Dumped v => v
  | _ => []
  end.

(** ** Observable effects *)

Inductive level := INFO | WARNING | ERROR.

Inductive event :=
| EvLog (lvl : level) (fmt : string) (args : list pyval)
| EvHttpGet (url : string)
| EvOpenRead (p : path)
| EvWrite (p : path) (v : list Notice)
| EvFeishu (title content : string)
| EvOnebotSendAll (message : pyval)
| EvHttpPost (url : string) (headers : gmap string string) (data : pyval).

Definition is_write (ev : event) : bool :=
  match ev with
  | EvWrite _ _ => true
  | _ => false
  end.

(** The feishu push, entering [onebot_send_all], and the POST it leads to. *)
Definition is_transport (ev : event) : bool :=
  match ev with
  | EvFeishu _ _ | EvOnebotSendAll _ | EvHttpPost _ _ _ => true
  | _ => false
  end.

(** ** The outside world *)

Record response := mkResponse {
  text : string;                     (* response.text *)
  json : outcome pyval               (* response.json() *)
}.

Record world := mkWorld {
  environ : gmap string string;                                     (* os.environ *)
  site : outcome (list Notice);                                     (* the page, fetched and parsed *)
  feishu_hook : string -> string -> option exn;                     (* feishu(title, content) *)
  http_post : string -> gmap string string -> pyval -> outcome response  (* requests.post *)
}.

(** ** State, exception and trace monad *)

Section Monad.
Context {S : Type}.

Definition M (A : Type) : Type := S -> outcome A * S * list event.

Definition ret {A} (a : A) : M A := fun s => (Return a, s, []).

Definition bind {A B} (c : M A) (k : A -> M B) : M B :=
  fun s =>
    match c s with
    | (Return a, s1, t1) =>
        let '(r, s2, t2) := k a s1 in (r, s2, t1 ++ t2)
    | (Raise e, s1, t1) => (Raise e, s1, t1)
    end.

Definition raise {A} (e : exn) : M A := fun s => (Raise e, s, []).

(** [try: c  except Exception as e: h e] *)
Definition try_except {A} (c : M A) (h : exn -> M A) : M A :=
  fun s =>
    match c s with
    | (Return a, s1, t1) => (Return a, s1, t1)
    | (Raise e, s1, t1) =>
        let '(r, s2, t2) := h e s1 in (r, s2, t1 ++ t2)
    end.

Definition emit (ev : event) : M unit := fun s => (Return tt, s, [ev]).

Definition get : M S := fun s => (Return s, s, []).

Definition modify (f : S -> S) : M unit := fun s => (Return tt, f s, []).

Definition log (lvl : level) (fmt : string) (args : list pyval) : M unit :=
  emit (EvLog lvl fmt args).
End Monad.
Arguments M : clear implicits.

Notation "x <- c ;; k" := (bind c (fun x => k))
  (at level 100, c at next level, right associativity).
Notation "c ;; k" := (bind c (fun _ => k))
  (at level 100, right associativity).

Definition result_of {S A} (r : outcome A * S * list event) : outcome A := r.1.1.
Definition state_of {S A} (r : outcome A * S * list event) : S := r.1.2.
Definition trace_of {S A} (r : outcome A * S * list event) : list event := r.2.

(** ** Python list slices *)

(** The position a slice bound [i] denotes in a list of length [len]. *)
Definition slice_bound (len : nat) (i : Z) : nat :=
  Z.to_nat (if i <? 0 then Z.max 0 (Z.of_nat len + i) else Z.min i (Z.of_nat len)).

(** [l[i:]] *)
Definition slice_from {A} (l : list A) (i : Z) : list A :=
  drop (slice_bound (length l) i) l.

(** [l[:i]] *)
Definition slice_to {A} (l : list A) (i : Z) : list A :=
  take (slice_bound (length l) i) l.

(** [len(l)] *)
Definition len {A} (l : list A) : Z := Z.of_nat (length l).

(** [not l] for a list. *)
Definition is_empty {A} (l : list A) : bool :=
  match l with
  | [] => true
  | _ => false
  end.

Definition nl : string := String "010"%char "".

(** ** String methods *)

(** [str.isspace] on the ASCII range; configuration strings are ASCII. *)
Definition is_space (c : ascii) : bool :=
  let n := nat_of_ascii c in
  ((9 <=? n) && (n <=? 13) || (28 <=? n) && (n <=? 32))%nat.

Fixpoint lstrip_chars (p : ascii -> bool) (l : list ascii) : list ascii :=
  match l with
  | c :: r => if p c then lstrip_chars p r else l
  | [] => []
  end.

Definition rstrip_chars (p : ascii -> bool) (l : list ascii) : list ascii :=
  rev (lstrip_chars p (rev l)).

(** [s.strip()] *)
Definition strip (s : string) : string :=
  string_of_list_ascii
    (rstrip_chars is_space (lstrip_chars is_space (list_ascii_of_string s))).

(** [s.rstrip(c)] for a single character [c]. *)
Definition rstrip (c : ascii) (s : string) : string :=
  string_of_list_ascii (rstrip_chars (Ascii.eqb c) (list_ascii_of_string s)).

(** [s.split(sep)] for a single character [sep]. *)
Fixpoint split (sep : ascii) (s : string) : list string :=
  match s with
  | EmptyString => [""]
  | String c r =>
      if Ascii.eqb c sep then "" :: split sep r
      else match split sep r with
           | h :: t => String c h :: t
           | [] => [String c ""]
           end
  end.

(** [not s] for a string. *)
Definition str_is_empty (s : string) : bool :=
  match s with
  | EmptyString => true
  | _ => false
  end.

(** [bool(o)] for an optional string: neither [None] nor [""]. *)
Definition truthy (o : option string) : bool :=
  match o with
  | Some s => negb (str_is_empty s)
  | None => false
  end.

(** [k in d] *)
Definition has_key {V} (k : string) (d : gmap string V) : bool :=
  bool_decide (is_Some (d !! k)).

(** * onebot.py *)

Module onebot.

Record OneBotSender := mkSender {
  onebot_url : option string;
  access_token : option string;
  target_groups : list string
}.

(** The local variable [result] of [send_group_message]; [None] until the
    assignment has run. *)
Definition frame : Type := option pyval.

Section Transport.
Context {S : Type}.
Variable w : world.

Definition _parse_target_groups : list string :=
  let groups_str := default "" (environ w !! "ONEBOT_TARGET_GROUPS") in
  if str_is_empty groups_str then []
  else
    strip <$> filter (fun group => negb (str_is_empty (strip group)))
                     (split "," groups_str).

Definition OneBotSender_init : M S OneBotSender :=
  let self := {| onebot_url := environ w !! "ONEBOT_HTTP_URL";
                 access_token := environ w !! "ONEBOT_ACCESS_TOKEN";
                 target_groups := _parse_target_groups |} in
  (if negb (truthy (onebot_url self)) then
     log ERROR "OneBot HTTP URL 未配置，请设置环境变量 ONEBOT_HTTP_URL" [] ;;
     raise (Exn ValueError "OneBot HTTP URL 未配置")
   else ret tt) ;;
  (if is_empty (target_groups self) then
     log WARNING "未配置目标群组，请设置环境变量 ONEBOT_TARGET_GROUPS" []
   else ret tt) ;;
  ret self.

Definition _build_headers (self : OneBotSender) : gmap string string :=
  let headers : gmap string string :=
    <["Content-Type" := "application/json"]>
      (<["User-Agent" := "QFNU-Monitor/1.0"]> ∅) in
  if truthy (access_token self) then
    <["Authorization" := "Bearer " +:+ default "" (access_token self)]> headers
  else headers.

(** [requests.post(api_url, headers=headers, data=json.dumps(data), timeout=10)] *)
Definition requests_post {T} (api_url : string) (headers : gmap string string)
    (data : pyval) : M T response :=
  emit (EvHttpPost api_url headers data) ;;
  match http_post w api_url headers data with
  | Return r => ret r
  | Raise e => raise e
  end.

(** [response.json()] *)
Definition response_json {T} (r : response) : M T pyval :=
  match json r with
  | Return v => ret v
  | Raise e => raise e
  end.

(** [result = v] *)
Definition assign_result (v : pyval) : M (S * frame) unit :=
  modify (fun sf => (sf.1, Some v)).

(** Evaluating the name [result]. *)
Definition read_result : M (S * frame) pyval :=
  sf <- get ;;
  match sf.2 with
  | Some v => ret v
  | None =>
      raise (Exn UnboundLocalError
               "cannot access local variable 'result' where it is not associated with a value")
  end.

(** Runs a function body whose local [result] starts out unbound. *)
Definition with_frame {A} (c : M (S * frame) A) : M S A :=
  fun s =>
    let '(r, sf, t) := c (s, None) in (r, sf.1, t).

Definition send_group_message (self : OneBotSender) (group_id : string)
    (message : pyval) : M S (gmap string pyval) :=
  if negb (truthy (onebot_url self)) then
    ret {["error" := PStr "OneBot URL 未配置"]}
  else
    let api_url := rstrip "/" (default "" (onebot_url self)) +:+ "/send_group_msg" in
    let formatted_message :=
      match message with
      | PStr s =>
          PList [PDict (<["type" := PStr "text"]>
                          (<["data" := PDict {["text" := PStr s]}]> ∅))]
      | _ => message
      end in
    let data :=
      PDict (<["group_id" := PStr group_id]>
               (<["message" := formatted_message]> ∅)) in
    let headers := _build_headers self in
    with_frame
      (try_except
         (response <- requests_post api_url headers data ;;
          log INFO "OneBot消息发送响应: {response.text}" [PStr (text response)] ;;
          result <- response_json response ;;
          assign_result result ;;
          match result with
          | PDict d =>
              if py_eq_str (default PNone (d !! "status")) "ok" then
                log INFO "OneBot消息发送成功 - 群组: {group_id}" [PStr group_id] ;;
                ret d
              else
                let error_msg := default (PStr "未知错误") (d !! "message") in
                r <- read_result ;;
                log ERROR
                  "OneBot消息发送失败 - 群组: {group_id}, 错误: {error_msg}，响应内容: {result}"
                  [PStr group_id; error_msg; r] ;;
                ret {["error" := error_msg]}
          | _ =>
              raise (Exn AttributeError
                       ("'" +:+ type_name result +:+ "' object has no attribute 'get'"))
          end)
         (fun e =>
            if is_RequestException e then
              let error_msg := "网络请求失败: " +:+ exn_str e in
              r <- read_result ;;
              log ERROR
                "OneBot消息发送失败 - 群组: {group_id}, {error_msg}，响应内容: {result}"
                [PStr group_id; PStr error_msg; r] ;;
              ret {["error" := PStr error_msg]}
            else if is_JSONDecodeError e then
              let error_msg := "响应解析失败: " +:+ exn_str e in
              r <- read_result ;;
              log ERROR
                "OneBot消息发送失败 - 群组: {group_id}, {error_msg}，响应内容: {result}"
                [PStr group_id; PStr error_msg; r] ;;
              ret {["error" := PStr error_msg]}
            else
              let error_msg := "未知错误: " +:+ exn_str e in
              r <- read_result ;;
              log ERROR
                "OneBot消息发送失败 - 群组: {group_id}, {error_msg}，响应内容: {result}"
                [PStr group_id; PStr error_msg; r] ;;
              ret {["error" := PStr error_msg]})).

(** The [for group_id in ...] loop shared by the two fan-out methods; it
    carries [results] and [success_count]. *)
Fixpoint send_loop (self : OneBotSender) (message : pyval) (groups : list string)
    (results : gmap string pyval) (success_count : Z)
    : M S (gmap string pyval * Z) :=
  match groups with
  | [] => ret (results, success_count)
  | group_id :: rest =>
      result <- send_group_message self group_id message ;;
      let results := <[group_id := PDict result]> results in
      let success_count :=
        if negb (has_key "error" result) then success_count + 1 else success_count in
      send_loop self message rest results success_count
  end.

Definition summary (groups : list string) (results : gmap string pyval)
    (success_count : Z) : gmap string pyval :=
  <["total_groups" := PInt (len groups)]>
    (<["success_count" := PInt success_count]>
       (<["failed_count" := PInt (len groups - success_count)]>
          (<["results" := PDict results]> ∅))).

Definition send_to_all_groups (self : OneBotSender) (message : pyval)
    : M S (gmap string pyval) :=
  if is_empty (target_groups self) then
    log WARNING "没有配置目标群组" [] ;;
    ret {["error" := PStr "没有配置目标群组"]}
  else
    rc <- send_loop self message (target_groups self) ∅ 0 ;;
    let '(results, success_count) := rc in
    (if 0 <? success_count then
       log INFO "OneBot批量发送完成: {success_count}/{len(self.target_groups)} 个群组发送成功"
         [PInt success_count; PInt (len (target_groups self))]
     else
       log ERROR "OneBot批量发送失败: 所有群组发送均失败" []) ;;
    ret (summary (target_groups self) results success_count).

Definition send_to_specific_groups (self : OneBotSender) (group_ids : list string)
    (message : pyval) : M S (gmap string pyval) :=
  if is_empty group_ids then
    ret {["error" := PStr "群组列表为空"]}
  else
    rc <- send_loop self message group_ids ∅ 0 ;;
    let '(results, success_count) := rc in
    log INFO "OneBot指定群组发送完成: {success_count}/{len(group_ids)} 个群组发送成功"
      [PInt success_count; PInt (len group_ids)] ;;
    ret (summary group_ids results success_count).

Definition onebot_send_all (message : pyval) : M S (gmap string pyval) :=
  emit (EvOnebotSendAll message) ;;
  try_except
    (sender <- OneBotSender_init ;;
     send_to_all_groups sender message)
    (fun e =>
       let error_msg := "OneBot发送失败: " +:+ exn_str e in
       log ERROR error_msg [] ;;
       ret {["error" := PStr error_msg]}).

Definition onebot_send_groups (group_ids : list string) (message : pyval)
    : M S (gmap string pyval) :=
  try_except
    (sender <- OneBotSender_init ;;
     send_to_specific_groups sender group_ids message)
    (fun e =>
       let error_msg := "OneBot发送失败: " +:+ exn_str e in
       log ERROR error_msg [] ;;
       ret {["error" := PStr error_msg]}).
End Transport.

End onebot.

(** * qfnu_jwc_gg.py *)

Module qfnu_jwc_gg.

Record QFNUJWCGGMonitor := mkMonitor {
  url : string;
  base_url : string;
  max_notices : Z
}.

(** [QFNUJWCGGMonitor()]: the attributes [__init__] sets. *)
Definition QFNUJWCGGMonitor_init : QFNUJWCGGMonitor :=
  {| url := "https://jwc.qfnu.edu.cn/gg_j_.htm";
     base_url := "https://jwc.qfnu.edu.cn/";
     max_notices := 30 |}.

Definition file_at (p : path) (st : store) : file :=
  match p with
  | DataFile => data_file st
  | ArchiveFile => archive_file st
  end.

(** [with open(p, "r") as f: return json.load(f)] *)
Definition json_load (p : path) : M store (list Notice) :=
  emit (EvOpenRead p) ;;
  st <- get ;;
  match file_at p st with
  | Dumped v => ret v
  | Garbled e => raise e
  | Blank => raise (Exn JSONDecodeError "Expecting value: line 1 column 1 (char 0)")
  | Missing => raise (Exn OSError "[Errno 2] No such file or directory")
  end.

(** [with open(p, "w") as f: json.dump(v, f, ensure_ascii=False, indent=2)].
    The write itself is taken to succeed: [__init__] creates both
    directories. *)
Definition json_dump (v : list Notice) (p : path) : M store unit :=
  emit (EvWrite p v) ;;
  modify (set_file p (Dumped v)).

Section Monitor.
Variable w : world.
Variable self : QFNUJWCGGMonitor.

(** [get_html], [parse_html] and [get_notices] in one step: the GET of
    [self.url] and the notices BeautifulSoup selects from the page. *)
Definition get_notices : M store (list Notice) :=
  emit (EvHttpGet (url self)) ;;
  match site w with
  | Return notices => ret notices
  | Raise e => raise e
  end.

Definition load_saved_notices : M store (list Notice) :=
  st <- get ;;
  if negb (path_exists (data_file st)) || getsize_is_0 (data_file st) then
    log INFO "初始化曲阜师范大学教务处公告记录文件" [] ;;
    ret []
  else
    try_except (json_load DataFile)
      (fun e =>
         log ERROR "读取曲阜师范大学教务处公告记录失败: {e}" [PStr (exn_str e)] ;;
         ret []).

Definition load_archived_notices : M store (list Notice) :=
  st <- get ;;
  if negb (path_exists (archive_file st)) || getsize_is_0 (archive_file st) then
    ret []
  else
    try_except (json_load ArchiveFile)
      (fun e =>
         log ERROR "读取曲阜师范大学教务处公告存档记录失败: {e}" [PStr (exn_str e)] ;;
         ret []).

Definition archive_notices (notices_to_archive : list Notice) : M store unit :=
  if is_empty notices_to_archive then ret tt
  else
    archived_notices <- load_archived_notices ;;
    let all_archived := archived_notices ++ notices_to_archive in
    json_dump all_archived ArchiveFile ;;
    log INFO "已归档{len(notices_to_archive)}条公告到{self.archive_file}"
      [PInt (len notices_to_archive)].

Definition save_notices (notices : list Notice) : M store unit :=
  let latest_notices :=
    if max_notices self <? len notices
    then slice_from notices (- max_notices self)
    else notices in
  json_dump latest_notices DataFile ;;
  if max_notices self <? len notices
  then archive_notices (slice_to notices (- max_notices self))
  else ret tt.

Definition append_new_notices (new_notices : list Notice) : M store unit :=
  saved_notices <- load_saved_notices ;;
  let all_notices := saved_notices ++ new_notices in
  save_notices all_notices.

Definition find_new_notices (current_notices saved_notices : list Notice)
    : list Notice :=
  if is_empty saved_notices then current_notices
  else
    let saved_titles : gset string := list_to_set (title <$> saved_notices) in
    filter (fun notice => title notice ∉ saved_titles) current_notices.

(** The body of [for i, notice in enumerate(new_notices, 1)], which both
    push methods share; [n] is [len(new_notices)]. *)
Fixpoint format_notices (i n : nat) (notices : list Notice) : string :=
  match notices with
  | [] => ""
  | notice :: rest =>
      "【" +:+ pretty i +:+ "】" +:+ title notice +:+ nl +:+
      "📅 " +:+ date notice +:+ nl +:+
      (if (i =? n)%nat then "🔗 " +:+ str_opt (link notice)
       else "🔗 " +:+ str_opt (link notice) +:+ nl +:+ nl) +:+
      format_notices (Datatypes.S i) n rest
  end.

(** [feishu(title, content)] *)
Definition feishu (title content : string) : M store unit :=
  emit (EvFeishu title content) ;;
  match feishu_hook w title content with
  | None => ret tt
  | Some e => raise e
  end.

Definition push_to_feishu (new_notices : list Notice) : M store unit :=
  if is_empty new_notices then ret tt
  else
    let title :=
      "📢 曲阜师范大学教务处有" +:+ pretty (length new_notices) +:+ "条新公告" in
    let content := format_notices 1 (length new_notices) new_notices in
    feishu title content.

Definition push_to_onebot (new_notices : list Notice) : M store unit :=
  if is_empty new_notices then ret tt
  else
    let message :=
      "📢 曲阜师范大学教务处有" +:+ pretty (length new_notices) +:+ "条新公告"
      +:+ nl +:+ nl +:+ format_notices 1 (length new_notices) new_notices in
    result <- onebot.onebot_send_all w (PStr message) ;;
    if has_key "error" result then
      log ERROR "OneBot发送失败: {result['error']}"
        [default PNone (result !! "error")]
    else
      log INFO "OneBot发送成功: {result.get('success_count', 0)} 个群组"
        [default (PInt 0) (result !! "success_count")].

Definition push_notifications (new_notices : list Notice) : M store unit :=
  if is_empty new_notices then ret tt
  else
    try_except (push_to_feishu new_notices)
      (fun e => log ERROR "飞书推送失败: {e}" [PStr (exn_str e)]) ;;
    try_except (push_to_onebot new_notices)
      (fun e => log ERROR "OneBot推送失败: {e}" [PStr (exn_str e)]).

Definition monitor : M store unit :=
  try_except
    (current_notices <- get_notices ;;
     if is_empty current_notices then
       log WARNING "未获取到任何公告" []
     else
       saved_notices <- load_saved_notices ;;
       let is_first_run := is_empty saved_notices in
       let new_notices := find_new_notices current_notices saved_notices in
       if negb (is_empty new_notices) then
         if is_first_run then
           log INFO
             "首次运行曲阜师范大学教务处公告监控器，初始化{len(new_notices)}条公告数据，不推送消息"
             [PInt (len new_notices)] ;;
           save_notices current_notices
         else
           log INFO "发现{len(new_notices)}条新公告" [PInt (len new_notices)] ;;
           push_notifications new_notices ;;
           append_new_notices new_notices
       else
         log INFO "没有新公告" [])
    (fun e => log ERROR "监控过程发生错误: {e}" [PStr (exn_str e)]).

Definition run : M store unit :=
  log INFO "开始监控曲阜师范大学教务处公告" [] ;;
  monitor.
End Monitor.

End qfnu_jwc_gg.

Import onebot qfnu_jwc_gg.

(** * Vocabulary of the statements *)

Section RunProperties.
Context {S : Type}.

(** [c] always comes back with a value. *)
Definition never_raises {A} (c : M S A) : Prop :=
  forall s, raised (result_of (c s)) = false.

(** [c] leaves the part [f] of the state alone. *)
Definition stable {T A} (f : S -> T) (c : M S A) : Prop :=
  forall s, f (state_of (c s)) = f s.
End RunProperties.

(** An event that is neither a write nor a transport event. *)
Definition quiet (ev : event) : bool := negb (is_write ev) && negb (is_transport ev).

(** What [save_notices] leaves in the two files, for any [max_notices]. *)
Definition saved_store (self : QFNUJWCGGMonitor) (notices : list Notice) (st : store)
    : store :=
  let overflow := max_notices self <? len notices in
  {| data_file :=
       Dumped (if overflow then slice_from notices (- max_notices self) else notices);
     archive_file :=
       if overflow && negb (is_empty (slice_to notices (- max_notices self)))
       then Dumped (stored (archive_file st) ++ slice_to notices (- max_notices self))
       else archive_file st |}.

(** The new notices in the spec's words: filter the current notices by "title not among
    the titles of the saved ones"; with nothing saved, all of them. *)
Definition new_by_title (current saved : list Notice) : list Notice :=
  match saved with
  | [] => current
  | _ :: _ => filter (fun notice => title notice ∉ title <$> saved) current
  end.

(** The text both transports are given for a batch of new notices. *)
Definition batch_title (new_notices : list Notice) : string :=
  "📢 曲阜师范大学教务处有" +:+ pretty (length new_notices) +:+ "条新公告".

Definition batch_body (new_notices : list Notice) : string :=
  format_notices 1 (length new_notices) new_notices.

Definition batch_message (new_notices : list Notice) : pyval :=
  PStr ("📢 曲阜师范大学教务处有" +:+ pretty (length new_notices) +:+ "条新公告"
        +:+ nl +:+ nl +:+ format_notices 1 (length new_notices) new_notices).

Definition unbound_result : exn :=
  Exn UnboundLocalError
      "cannot access local variable 'result' where it is not associated with a value".

(** The endpoint and the request body [send_group_message] builds. *)
Definition api_url (self : OneBotSender) : string :=
  rstrip "/" (default "" (onebot_url self)) +:+ "/send_group_msg".

Definition payload (group_id : string) (message : pyval) : pyval :=
  PDict (<["group_id" := PStr group_id]>
           (<["message" :=
                match message with
                | PStr s =>
                    PList [PDict (<["type" := PStr "text"]>
                                    (<["data" := PDict {["text" := PStr s]}]> ∅))]
                | _ => message
                end]> ∅)).

(** * Sample inputs *)

Definition notice_A : Notice :=
  {| title := "A"; link := Some "https://jwc.qfnu.edu.cn/info/1001.htm"; date := "2024-05-01" |}.
Definition notice_B : Notice :=
  {| title := "B"; link := Some "https://jwc.qfnu.edu.cn/info/1002.htm"; date := "2024-05-02" |}.
Definition notice_C : Notice :=
  {| title := "C"; link := None; date := "" |}.

(** A monitor whose window was set to two notices. *)
Definition monitor_2 : QFNUJWCGGMonitor :=
  {| url := url QFNUJWCGGMonitor_init;
     base_url := base_url QFNUJWCGGMonitor_init;
     max_notices := 2 |}.

Definition connection_refused : exn := Exn ConnectionError "Connection refused".

(** The page lists A and B; nothing is configured; feishu and the bot's
    endpoint are both down. *)
Definition world_down : world :=
  {| environ := ∅;
     site := Return [notice_A; notice_B];
     feishu_hook := fun _ _ => Some connection_refused;
     http_post := fun _ _ _ => Raise connection_refused |}.

(** The same with the bot's URL and one target group configured. *)
Definition world_bot_down : world :=
  {| environ := <["ONEBOT_HTTP_URL" := "http://127.0.0.1:3000/"]>
                  (<["ONEBOT_TARGET_GROUPS" := "123456"]> ∅);
     site := site world_down;
     feishu_hook := feishu_hook world_down;
     http_post := http_post world_down |}.

(** Two target groups, the endpoint down. *)
Definition world_two_groups_down : world :=
  {| environ := <["ONEBOT_HTTP_URL" := "http://127.0.0.1:3000/"]>
                  (<["ONEBOT_TARGET_GROUPS" := "111, 222"]> ∅);
     site := site world_down;
     feishu_hook := feishu_hook world_down;
     http_post := http_post world_down |}.

Definition is_post (ev : event) : bool :=
  match ev with
  | EvHttpPost _ _ _ => true
  | _ => false
  end.

(** The bot's URL alone; every reply is a page that is not JSON. *)
Definition world_not_json : world :=
  {| environ := <["ONEBOT_HTTP_URL" := "http://127.0.0.1:3000/"]> ∅;
     site := site world_down;
     feishu_hook := feishu_hook world_down;
     http_post := fun _ _ _ =>
       Return {| text := "<html>502 Bad Gateway</html>";
                 json := Raise (Exn RequestsJSONDecodeError
                                  "Expecting value: line 1 column 1 (char 0)") |} |}.

Definition sender_1 : OneBotSender :=
  {| onebot_url := Some "http://127.0.0.1:3000/";
     access_token := None;
     target_groups := ["123456"] |}.

Definition sender_no_groups : OneBotSender :=
  {| onebot_url := Some "http://127.0.0.1:3000/";
     access_token := None;
     target_groups := [] |}.

Definition store_empty : store := {| data_file := Missing; archive_file := Missing |}.

Definition store_CA : store :=
  {| data_file := Dumped [notice_C; notice_A]; archive_file := Blank |}.

(** * The extraction loop of [get_notices] *)




(** * Further vocabulary *)

(** Every event of [c] satisfies [p]. *)
Definition emits_only {S A} (p : event -> bool) (c : M S A) : Prop :=
  forall s, forallb p (trace_of (c s)) = true.

Definition is_log (ev : event) : bool :=
  match ev with
  | EvLog _ _ _ => true
  | _ => false
  end.

Definition is_feishu (ev : event) : bool :=
  match ev with
  | EvFeishu _ _ => true
  | _ => false
  end.

Definition is_send_all (ev : event) : bool :=
  match ev with
  | EvOnebotSendAll _ => true
  | _ => false
  end.

(** What the sender itself emits: log records and POSTs. *)
Definition log_or_post (ev : event) : bool := is_log ev || is_post ev.

(** How many events of a trace satisfy [p]. *)
Definition count (p : event -> bool) (t : list event) : nat :=
  length (List.filter p t).

(** The notices of a cycle that are new against the active store. *)
Definition cycle_new (w : world) (st : store) : list Notice :=
  match site w with
  | Return current => find_new_notices current (stored (data_file st))
  | Raise _ => []
  end.

(** The store a cycle leaves. *)
Definition cycle_store (w : world) (self : QFNUJWCGGMonitor) (st : store) : store :=
  if is_empty (cycle_new w st) then st
  else saved_store self (stored (data_file st) ++ cycle_new w st) st.

(** What [push_notifications] emits for a batch: the feishu call, the
    record of its failure if it raised, the OneBot call, and what the sender
    emitted during it. *)
Definition feishu_log (w : world) (new_notices : list Notice) : list event :=
  match feishu_hook w (batch_title new_notices) (batch_body new_notices) with
  | None => []
  | Some e => [EvLog ERROR "飞书推送失败: {e}" [PStr (exn_str e)]]
  end.

Definition push_trace (w : world) (new_notices : list Notice) (sent : list event)
    : list event :=
  EvFeishu (batch_title new_notices) (batch_body new_notices)
  :: feishu_log w new_notices
  ++ EvOnebotSendAll (batch_message new_notices) :: sent.

(** One numbered entry of a notification, without what separates it from
    the next. *)
Definition entry (i : nat) (notice : Notice) : string :=
  "【" +:+ pretty i +:+ "】" +:+ title notice +:+ nl +:+
  "📅 " +:+ date notice +:+ nl +:+
  "🔗 " +:+ str_opt (link notice).

Fixpoint entries (i : nat) (notices : list Notice) : list string :=
  match notices with
  | [] => []
  | notice :: rest => entry i notice :: entries (Datatypes.S i) rest
  end.

(** What [send_group_message] returns for a reply that is a JSON object. *)
Definition answer (d : gmap string pyval) : gmap string pyval :=
  if py_eq_str (default PNone (d !! "status")) "ok" then d
  else {["error" := default (PStr "未知错误") (d !! "message")]}.




(** The last [n] elements of a list. *)
Definition last_n {A} (n : nat) (l : list A) : list A := drop (length l - n) l.

(** More sample inputs. *)

Definition ok_reply : response :=
  {| text := "{...}";
     json := Return (PDict (<["status" := PStr "ok"]> (<["retcode" := PInt 0]> ∅))) |}.

Definition failed_reply : response :=
  {| text := "{...}";
     json := Return (PDict (<["status" := PStr "failed"]>
                              (<["message" := PStr "group not found"]> ∅))) |}.

(** Two target groups and a token configured; every POST is answered with
    [status == "ok"]. *)
Definition world_ok : world :=
  {| environ := <["ONEBOT_HTTP_URL" := "http://127.0.0.1:3000/"]>
                  (<["ONEBOT_ACCESS_TOKEN" := "secret"]>
                     (<["ONEBOT_TARGET_GROUPS" := " 111 ,, 222,"]> ∅));
     site := Return [notice_A; notice_B];
     feishu_hook := fun _ _ => None;
     http_post := fun _ _ _ => Return ok_reply |}.

(** The same endpoint answering every POST with [status == "failed"]. *)
Definition world_failed : world :=
  {| environ := environ world_ok;
     site := site world_ok;
     feishu_hook := feishu_hook world_ok;
     http_post := fun _ _ _ => Return failed_reply |}.

(** The page cannot be fetched. *)
Definition world_offline : world :=
  {| environ := ∅;
     site := Raise connection_refused;
     feishu_hook := fun _ _ => None;
     http_post := fun _ _ _ => Raise connection_refused |}.

Definition sender_2 : OneBotSender :=
  {| onebot_url := Some "http://127.0.0.1:3000/";
     access_token := Some "secret";
     target_groups := ["111"; "222"] |}.

Definition store_A : store :=
  {| data_file := Dumped [notice_A]; archive_file := Missing |}.


(** * Reasoning about runs *)

Section Runs.
Context {S : Type}.

Lemma bind_Return {A B} (c : M S A) (k : A -> M S B) s a s1 t1 :
  c s = (Return a, s1, t1) ->
  bind c k s = (result_of (k a s1), state_of (k a s1), t1 ++ trace_of (k a s1)).
Proof.
  intros H. unfold bind. rewrite H.
  by destruct (k a s1) as [[r s2] t2].
Qed.

Lemma bind_Raise {A B} (c : M S A) (k : A -> M S B) s e s1 t1 :
  c s = (Raise e, s1, t1) -> bind c k s = (Raise e, s1, t1).
Proof. intros H. unfold bind. by rewrite H. Qed.

Lemma try_Return {A} (c : M S A) h s a s1 t1 :
  c s = (Return a, s1, t1) -> try_except c h s = (Return a, s1, t1).
Proof. intros H. unfold try_except. by rewrite H. Qed.

Lemma try_Raise {A} (c : M S A) h s e s1 t1 :
  c s = (Raise e, s1, t1) ->
  try_except c h s = (result_of (h e s1), state_of (h e s1), t1 ++ trace_of (h e s1)).
Proof.
  intros H. unfold try_except. rewrite H.
  by destruct (h e s1) as [[r s2] t2].
Qed.

(** *** Composition rules *)

Lemma never_raises_ret {A} (a : A) : never_raises (S:=S) (ret a).
Proof. done. Qed.

Lemma never_raises_emit ev : never_raises (S:=S) (emit ev).
Proof. done. Qed.

Lemma never_raises_bind {A B} (c : M S A) (k : A -> M S B) :
  never_raises c -> (forall a, never_raises (k a)) -> never_raises (bind c k).
Proof.
  intros Hc Hk s. specialize (Hc s). unfold bind.
  destruct (c s) as [[[a|e] s1] t1]; [|done].
  specialize (Hk a s1). by destruct (k a s1) as [[r s2] t2].
Qed.

Lemma never_raises_try {A} (c : M S A) h :
  (forall e, never_raises (h e)) -> never_raises (try_except c h).
Proof.
  intros Hh s. unfold try_except.
  destruct (c s) as [[[a|e] s1] t1]; [done|].
  specialize (Hh e s1). by destruct (h e s1) as [[r s2] t2].
Qed.

Lemma stable_ret {T A} (f : S -> T) (a : A) : stable f (ret a).
Proof. done. Qed.

Lemma stable_raise {T A} (f : S -> T) e : stable f (raise (A:=A) e).
Proof. done. Qed.

Lemma stable_emit {T} (f : S -> T) ev : stable f (emit ev).
Proof. done. Qed.

Lemma stable_get {T} (f : S -> T) : stable f get.
Proof. done. Qed.

Lemma stable_bind {T A B} (f : S -> T) (c : M S A) (k : A -> M S B) :
  stable f c -> (forall a, stable f (k a)) -> stable f (bind c k).
Proof.
  intros Hc Hk s. specialize (Hc s). unfold bind.
  destruct (c s) as [[[a|e] s1] t1]; [|done].
  specialize (Hk a s1). destruct (k a s1) as [[r s2] t2].
  unfold state_of in *. simpl in *. congruence.
Qed.

Lemma stable_try {T A} (f : S -> T) (c : M S A) h :
  stable f c -> (forall e, stable f (h e)) -> stable f (try_except c h).
Proof.
  intros Hc Hh s. specialize (Hc s). unfold try_except.
  destruct (c s) as [[[a|e] s1] t1]; [done|].
  specialize (Hh e s1). destruct (h e s1) as [[r s2] t2].
  unfold state_of in *. simpl in *. congruence.
Qed.
End Runs.

Create HintDb runs discriminated.
#[export] Hint Resolve never_raises_ret never_raises_emit
  stable_ret stable_raise stable_emit stable_get : runs.

(** Splits a goal about a sequence of statements into its steps. *)
Ltac step_runs :=
  repeat first
    [ done
    | solve [auto with runs]
    | apply stable_bind; [|intros ?]
    | apply stable_try; [|intros ?]
    | apply never_raises_bind; [|intros ?]
    | apply never_raises_try; intros ? ].

Lemma is_empty_false {A} (l : list A) : l <> [] -> is_empty l = false.
Proof. by destruct l. Qed.

(** * Slices *)

Lemma slice_from_neg {A} (l : list A) (m : Z) :
  0 < m -> slice_from l (- m) = drop (length l - Z.to_nat m) l.
Proof.
  intros Hm. unfold slice_from, slice_bound. f_equal.
  destruct (Z.ltb_spec (- m) 0); lia.
Qed.

Lemma slice_to_neg {A} (l : list A) (m : Z) :
  0 < m -> slice_to l (- m) = take (length l - Z.to_nat m) l.
Proof.
  intros Hm. unfold slice_to, slice_bound. f_equal.
  destruct (Z.ltb_spec (- m) 0); lia.
Qed.

(** [l[:i] + l[i:] == l] for every bound. *)
Lemma slice_to_from {A} (l : list A) (i : Z) : slice_to l i ++ slice_from l i = l.
Proof. apply take_drop. Qed.

(** * The notice store *)

Lemma forallb_weaken {A} (p q : A -> bool) (l : list A) :
  (forall x, p x = true -> q x = true) -> forallb p l = true -> forallb q l = true.
Proof.
  intros Hpq. induction l as [|x l IH]; [done|]. simpl.
  intros [Hx Hl]%andb_prop. by rewrite (Hpq x Hx), (IH Hl).
Qed.

Lemma quiet_no_transport (ev : event) : quiet ev = true -> negb (is_transport ev) = true.
Proof. unfold quiet. by intros [_ ?]%andb_prop. Qed.

Lemma load_saved_notices_run (st : store) :
  exists t, load_saved_notices st = (Return (stored (data_file st)), st, t)
            /\ forallb quiet t = true.
Proof. destruct st as [[| |e|v] af]; eexists; (split; [reflexivity|done]). Qed.

Lemma load_archived_notices_run (st : store) :
  exists t, load_archived_notices st = (Return (stored (archive_file st)), st, t)
            /\ forallb quiet t = true.
Proof. destruct st as [df [| |e|v]]; eexists; (split; [reflexivity|done]). Qed.

Lemma archive_notices_run (notices : list Notice) (st : store) :
  exists t,
    archive_notices notices st =
      (Return tt,
       if is_empty notices then st
       else {| data_file := data_file st;
               archive_file := Dumped (stored (archive_file st) ++ notices) |},
       t)
    /\ forallb (fun ev => negb (is_transport ev)) t = true.
Proof.
  destruct notices as [|n l]; [by exists []|].
  destruct (load_archived_notices_run st) as (t & Hload & Ht).
  cbv beta iota delta [archive_notices is_empty].
  rewrite (bind_Return _ _ _ _ _ _ Hload). simpl.
  eexists; split; [reflexivity|].
  rewrite forallb_app. simpl. rewrite andb_true_r.
  exact (forallb_weaken _ _ _ quiet_no_transport Ht).
Qed.

Lemma json_dump_run (v : list Notice) (p : path) (st : store) :
  json_dump v p st = (Return tt, set_file p (Dumped v) st, [EvWrite p v]).
Proof. reflexivity. Qed.

Lemma save_notices_run (self : QFNUJWCGGMonitor) (notices : list Notice) (st : store) :
  exists t,
    save_notices self notices st =
      (Return tt, saved_store self notices st,
       EvWrite DataFile (stored (data_file (saved_store self notices st))) :: t)
    /\ forallb (fun ev => negb (is_transport ev)) t = true.
Proof.
  unfold save_notices, saved_store.
  destruct (max_notices self <? len notices) eqn:Hover.
  - set (kept := slice_from notices (- max_notices self)).
    set (old := slice_to notices (- max_notices self)).
    destruct (archive_notices_run old (set_file DataFile (Dumped kept) st))
      as (t & Harch & Ht).
    exists t. split; [|done].
    rewrite (bind_Return _ _ _ _ _ _ (json_dump_run kept DataFile st)), Harch.
    by destruct (is_empty old).
  - exists []. split; [|done].
    by rewrite (bind_Return _ _ _ _ _ _ (json_dump_run notices DataFile st)).
Qed.

Lemma saved_store_data (self : QFNUJWCGGMonitor) (notices : list Notice) (st : store) :
  0 < max_notices self ->
  data_file (saved_store self notices st) =
    Dumped (drop (length notices - Z.to_nat (max_notices self)) notices).
Proof.
  intros Hmax. unfold saved_store, len. simpl. f_equal.
  destruct (Z.ltb_spec (max_notices self) (Z.of_nat (length notices))).
  - by apply slice_from_neg.
  - by replace (length notices - Z.to_nat (max_notices self))%nat with 0%nat by lia.
Qed.

(** The slice [notices[-0:]] is the whole list: a window of zero would keep
    everything and archive nothing.  [__init__] sets the window to 30. *)
Remark save_notices_zero_window (self : QFNUJWCGGMonitor) (notices : list Notice)
    (st : store) :
  max_notices self = 0 ->
  state_of (save_notices self notices st) =
    {| data_file := Dumped notices; archive_file := archive_file st |}.
Proof.
  intros Hzero. destruct (save_notices_run self notices st) as (t & -> & _).
  unfold state_of, saved_store. simpl. rewrite Hzero. unfold slice_from, slice_to.
  replace (slice_bound (length notices) (- 0)) with 0%nat
    by (unfold slice_bound; simpl; lia).
  rewrite take_0, drop_0. by destruct (0 <? len notices).
Qed.

(** C1.  With a positive [max_notices], [save_notices] returns normally and
    writes to the active file the last [max_notices] entries of the sequence
    (all of it when it is not longer), which are at most [max_notices] many;
    when the sequence is longer, the prefix that was cut off is appended to
    what the archive held, and otherwise the archive file is left as it was.
    Prefix and kept entries together are the whole sequence: nothing is
    dropped. *)
Theorem save_notices_window (self : QFNUJWCGGMonitor) (notices : list Notice)
    (st : store) :
  0 < max_notices self ->
  let n := Z.to_nat (max_notices self) in
  let kept := drop (length notices - n) notices in
  let excess := take (length notices - n) notices in
  let r := save_notices self notices st in
  result_of r = Return tt
  /\ data_file (state_of r) = Dumped kept
  /\ In (EvWrite DataFile kept) (trace_of r)
  /\ (length kept <= n)%nat
  /\ archive_file (state_of r) =
       (if decide (n < length notices)%nat
        then Dumped (stored (archive_file st) ++ excess)
        else archive_file st)
  /\ excess ++ kept = notices.
Proof.
  intros Hmax n kept excess r.
  destruct (save_notices_run self notices st) as (t & Hrun & _).
  pose proof (saved_store_data self notices st Hmax) as Hkept.
  subst r. rewrite Hrun. unfold result_of, state_of, trace_of.
  cbn [fst snd]. rewrite Hkept. fold n. fold kept.
  cbn [stored saved_store archive_file]. split_and!; try done.
  - by left.
  - subst kept. rewrite length_drop. lia.
  - rewrite slice_to_neg by done. fold n. fold excess. unfold len.
    destruct (Z.ltb_spec (max_notices self) (Z.of_nat (length notices))) as [Hlt|Hge];
      destruct (decide (n < length notices)%nat) as [Hn|Hn]; try (subst n; lia).
    + destruct excess eqn:Hex; [|done].
      apply (f_equal length) in Hex. subst excess. rewrite length_take in Hex.
      simpl in Hex. lia.
    + done.
  - apply take_drop.
Qed.

(** C3.  [find_new_notices] is the subsequence of the current notices whose
    titles do not occur among the saved titles when something is saved, and
    the current sequence itself when nothing is. *)
Theorem find_new_notices_by_title (current saved : list Notice) :
  find_new_notices current saved = new_by_title current saved.
Proof.
  unfold find_new_notices, new_by_title.
  destruct saved as [|s saved]; [done|].
  cbv beta iota delta [is_empty].
  apply list_filter_iff. intros notice.
  by rewrite elem_of_list_to_set.
Qed.

(** C5.  Both loaders give the empty sequence for a file that is absent or
    of size zero, and for one whose contents fail to load, where they log
    the error first; on no store do they raise. *)
Theorem load_notices_recover (e : exn) (other : file) :
  let missing_d := {| data_file := Missing; archive_file := other |} in
  let blank_d := {| data_file := Blank; archive_file := other |} in
  let garbled_d := {| data_file := Garbled e; archive_file := other |} in
  let missing_a := {| data_file := other; archive_file := Missing |} in
  let blank_a := {| data_file := other; archive_file := Blank |} in
  let garbled_a := {| data_file := other; archive_file := Garbled e |} in
  result_of (load_saved_notices missing_d) = Return []
  /\ result_of (load_saved_notices blank_d) = Return []
  /\ load_saved_notices garbled_d =
       (Return [], garbled_d,
        [EvOpenRead DataFile;
         EvLog ERROR "读取曲阜师范大学教务处公告记录失败: {e}" [PStr (exn_str e)]])
  /\ load_archived_notices missing_a = (Return [], missing_a, [])
  /\ load_archived_notices blank_a = (Return [], blank_a, [])
  /\ load_archived_notices garbled_a =
       (Return [], garbled_a,
        [EvOpenRead ArchiveFile;
         EvLog ERROR "读取曲阜师范大学教务处公告存档记录失败: {e}" [PStr (exn_str e)]])
  /\ never_raises load_saved_notices
  /\ never_raises load_archived_notices.
Proof.
  simpl. split_and!; try reflexivity.
  - intros st. destruct (load_saved_notices_run st) as (t & -> & _). done.
  - intros st. destruct (load_archived_notices_run st) as (t & -> & _). done.
Qed.

(** C6.  On the empty sequence [archive_notices] returns at once: the store,
    the archive file with it, is unchanged and the trace is empty, so the
    file is neither opened nor written. *)
Theorem archive_notices_nil (st : store) :
  archive_notices [] st = (Return tt, st, []).
Proof. reflexivity. Qed.

(** * The OneBot transport leaves the caller's state alone *)

Section TransportFrame.
Context {S : Type}.
Variable w : world.

Lemma stable_log {T U} (f : T -> U) lvl fmt args : stable f (log lvl fmt args).
Proof. done. Qed.

Lemma requests_post_stable {T U} (f : T -> U) api_url headers data :
  stable f (requests_post w api_url headers data).
Proof.
  unfold requests_post. apply stable_bind; [done|]. intros _.
  destruct (http_post w api_url headers data); done.
Qed.

Lemma response_json_stable {T U} (f : T -> U) (r : response) :
  stable f (response_json r).
Proof. unfold response_json. destruct (json r); done. Qed.

Lemma assign_result_stable (v : pyval) : stable (S:=S * frame) fst (assign_result v).
Proof. done. Qed.

Lemma read_result_stable : stable (S:=S * frame) fst read_result.
Proof.
  unfold read_result. apply stable_bind; [done|]. intros sf.
  destruct (sf.2); done.
Qed.

Lemma with_frame_stable {A} (c : M (S * frame) A) :
  stable fst c -> stable (S:=S) id (with_frame c).
Proof.
  intros Hc s. specialize (Hc (s, None)). unfold with_frame.
  by destruct (c (s, None)) as [[r sf] t].
Qed.

Hint Resolve stable_log requests_post_stable response_json_stable
  assign_result_stable read_result_stable : runs.

Lemma send_group_message_stable self group_id message :
  stable (S:=S) id (send_group_message w self group_id message).
Proof.
  unfold send_group_message.
  destruct (negb (truthy (onebot_url self))); [done|].
  apply with_frame_stable, stable_try.
  - repeat (apply stable_bind; [auto with runs|]; intros ?).
    destruct a1 as [| | | | |d]; auto with runs.
    destruct (py_eq_str _ _); step_runs.
  - intros e. destruct (is_RequestException e), (is_JSONDecodeError e); step_runs.
Qed.

Lemma send_loop_stable self message groups results success_count :
  stable (S:=S) id (send_loop w self message groups results success_count).
Proof.
  revert results success_count.
  induction groups as [|g groups IH]; intros results success_count; simpl; [done|].
  apply stable_bind; [apply send_group_message_stable|]. intros result. apply IH.
Qed.

Lemma OneBotSender_init_stable : stable (S:=S) id (OneBotSender_init w).
Proof.
  unfold OneBotSender_init. simpl.
  repeat (apply stable_bind; [|intros ?]); auto with runs.
  - destruct (negb _); step_runs.
  - destruct (is_empty _); step_runs.
Qed.

Lemma send_to_all_groups_stable self message :
  stable (S:=S) id (send_to_all_groups w self message).
Proof.
  unfold send_to_all_groups.
  destruct (is_empty _); [step_runs|].
  apply stable_bind; [apply send_loop_stable|]. intros [results success_count].
  destruct (0 <? success_count); step_runs.
Qed.

(** [onebot_send_all] always returns a dict, changes nothing of the
    caller's state, and its trace starts with the call itself. *)
Lemma onebot_send_all_run (message : pyval) (s : S) :
  exists d t,
    onebot_send_all w message s = (Return d, s, EvOnebotSendAll message :: t).
Proof.
  unfold onebot_send_all.
  set (body := try_except _ _).
  assert (Hst : stable id body).
  { apply stable_try.
    - apply stable_bind; [apply OneBotSender_init_stable|].
      intros sender. apply send_to_all_groups_stable.
    - intros e. step_runs. }
  assert (Hnr : never_raises body).
  { apply never_raises_try. intros e. step_runs. }
  specialize (Hst s). specialize (Hnr s).
  unfold bind, emit. destruct (body s) as [[[d|e] s1] t1]; [|done].
  exists d, t1. unfold state_of in Hst. simpl in Hst. by subst s1.
Qed.
End TransportFrame.

(** * The monitor cycle *)

Lemma find_new_notices_nonempty (current saved : list Notice) :
  saved <> [] ->
  find_new_notices current saved =
    filter (fun notice => title notice ∉ (list_to_set (title <$> saved) : gset string))
           current.
Proof. by destruct saved. Qed.

Section Cycle.
Variable w : world.
Variable self : QFNUJWCGGMonitor.

Lemma get_notices_run (current : list Notice) (st : store) :
  site w = Return current ->
  get_notices w self st = (Return current, st, [EvHttpGet (url self)]).
Proof. intros Hsite. unfold get_notices, bind, emit. by rewrite Hsite. Qed.

Lemma find_new_notices_nil (current saved : list Notice) :
  current <> [] ->
  (list_to_set (title <$> current) : gset string)
    ⊆ list_to_set (title <$> saved) ->
  saved <> [] /\ find_new_notices current saved = [].
Proof.
  intros Hcur Hsub.
  assert (Hin : forall notice, notice ∈ current -> title notice ∈ title <$> saved).
  { intros notice Hn. apply (elem_of_list_to_set (C:=gset string)), Hsub.
    apply elem_of_list_to_set. by apply list_elem_of_fmap_2. }
  assert (Hsaved : saved <> []).
  { destruct current as [|c current]; [done|].
    intros ->. specialize (Hin c (list_elem_of_here _ _)). by apply elem_of_nil in Hin. }
  split; [done|].
  rewrite find_new_notices_nonempty by done.
  clear Hcur Hsub. induction current as [|c current IH]; [done|].
  rewrite filter_cons_False.
  - apply IH. intros notice Hn. apply Hin. by right.
  - intros Hc. apply Hc, elem_of_list_to_set, Hin. by left.
Qed.

Lemma push_to_feishu_run (new_notices : list Notice) (st : store) :
  new_notices <> [] ->
  push_to_feishu w new_notices st =
    (match feishu_hook w (batch_title new_notices) (batch_body new_notices) with
     | None => Return tt
     | Some e => Raise e
     end, st,
     [EvFeishu (batch_title new_notices) (batch_body new_notices)]).
Proof.
  intros Hnew. destruct new_notices as [|n l]; [done|].
  unfold push_to_feishu, feishu, bind, emit.
  cbv beta iota delta [is_empty]. fold (batch_title (n :: l)). fold (batch_body (n :: l)).
  by destruct (feishu_hook w _ _).
Qed.

Lemma push_to_onebot_run (new_notices : list Notice) (st : store) :
  new_notices <> [] ->
  exists t,
    push_to_onebot w new_notices st =
      (Return tt, st,
       EvOnebotSendAll (batch_message new_notices) :: t).
Proof.
  intros Hnew. destruct new_notices as [|n l]; [done|].
  unfold push_to_onebot. cbv beta iota delta [is_empty].
  fold (batch_message (n :: l)).
  destruct (onebot_send_all_run w (batch_message (n :: l)) st) as (d & t & Hsend).
  rewrite (bind_Return _ _ _ _ _ _ Hsend).
  destruct (has_key "error" d); eexists; reflexivity.
Qed.

(** The two pushes of a steady-state cycle: whatever feishu does, the
    OneBot call follows it, nothing is raised and the store is as before. *)
Lemma push_notifications_run (new_notices : list Notice) (st : store) :
  new_notices <> [] ->
  exists t,
    push_notifications w new_notices st =
      (Return tt, st,
       EvFeishu (batch_title new_notices) (batch_body new_notices)
       :: match feishu_hook w (batch_title new_notices) (batch_body new_notices) with
          | None => []
          | Some e => [EvLog ERROR "飞书推送失败: {e}" [PStr (exn_str e)]]
          end
       ++ EvOnebotSendAll (batch_message new_notices) :: t).
Proof.
  intros Hnew.
  destruct (push_to_onebot_run new_notices st Hnew) as (t & Honebot).
  exists t. unfold push_notifications.
  destruct new_notices as [|n l]; [done|]. cbv beta iota delta [is_empty].
  pose proof (push_to_feishu_run (n :: l) st Hnew) as Hfeishu.
  destruct (feishu_hook w _ _) as [e|].
  - erewrite bind_Return; [|by erewrite try_Raise by exact Hfeishu].
    by rewrite (try_Return _ _ _ _ _ _ Honebot).
  - erewrite bind_Return; [|by erewrite try_Return by exact Hfeishu].
    by rewrite (try_Return _ _ _ _ _ _ Honebot).
Qed.

Lemma append_new_notices_run (new_notices : list Notice) (st : store) :
  exists t1 t2,
    append_new_notices self new_notices st =
      (Return tt, saved_store self (stored (data_file st) ++ new_notices) st,
       t1 ++ EvWrite DataFile
               (stored (data_file
                  (saved_store self (stored (data_file st) ++ new_notices) st)))
             :: t2).
Proof.
  destruct (load_saved_notices_run st) as (t1 & Hload & _).
  destruct (save_notices_run self (stored (data_file st) ++ new_notices) st)
    as (t2 & Hsave & _).
  exists t1, t2. unfold append_new_notices.
  by rewrite (bind_Return _ _ _ _ _ _ Hload), Hsave.
Qed.
End Cycle.

(** C2.  First run: when the active store is empty (the file is absent,
    blank, unreadable, or holds the empty list) and the fetch gives a
    non-empty sequence, the cycle ends normally with the active file holding
    the last [max_notices] entries of that sequence (the sequence itself when
    it is not longer), and the trace has no transport event. *)
Theorem monitor_first_run (w : world) (self : QFNUJWCGGMonitor) (st : store)
    (current : list Notice) :
  0 < max_notices self ->
  site w = Return current ->
  current <> [] ->
  stored (data_file st) = [] ->
  let n := Z.to_nat (max_notices self) in
  let r := monitor w self st in
  result_of r = Return tt
  /\ data_file (state_of r) = Dumped (drop (length current - n) current)
  /\ forallb (fun ev => negb (is_transport ev)) (trace_of r) = true.
Proof.
  intros Hmax Hsite Hcur Hempty n r.
  destruct (load_saved_notices_run st) as (t1 & Hload & Ht1).
  destruct (save_notices_run self current st) as (t2 & Hsave & Ht2).
  pose proof (saved_store_data self current st Hmax) as Hdata.
  rewrite Hempty in Hload.
  assert (Hrun : r = (Return tt, saved_store self current st,
                      [EvHttpGet (url self)] ++ t1
                      ++ [EvLog INFO
                            "首次运行曲阜师范大学教务处公告监控器，初始化{len(new_notices)}条公告数据，不推送消息"
                            [PInt (len current)]]
                      ++ EvWrite DataFile (stored (data_file (saved_store self current st)))
                      :: t2)).
  { subst r. unfold monitor. apply try_Return.
    rewrite (bind_Return _ _ _ _ _ _ (get_notices_run w self current st Hsite)).
    destruct current as [|c current]; [done|]. cbv beta iota delta [is_empty].
    rewrite (bind_Return _ _ _ _ _ _ Hload).
    cbv beta iota zeta delta [is_empty find_new_notices negb].
    erewrite bind_Return by reflexivity. by rewrite Hsave. }
  rewrite Hrun. unfold result_of, state_of, trace_of. simpl.
  split_and!; [done|exact Hdata|].
  rewrite forallb_app, (forallb_weaken _ _ _ quiet_no_transport Ht1). simpl.
  exact Ht2.
Qed.

(** C4.  When every fetched title is among the titles the active store
    loads to, the cycle ends normally, the store (active and archive file)
    is exactly as before, and the trace holds neither a write nor a
    transport event. *)
Theorem monitor_no_new_notices (w : world) (self : QFNUJWCGGMonitor) (st : store)
    (current : list Notice) :
  site w = Return current ->
  (list_to_set (title <$> current) : gset string)
    ⊆ list_to_set (title <$> stored (data_file st)) ->
  let r := monitor w self st in
  result_of r = Return tt
  /\ state_of r = st
  /\ forallb quiet (trace_of r) = true.
Proof.
  intros Hsite Hsub r.
  pose proof (get_notices_run w self current st Hsite) as Hget.
  destruct current as [|c current].
  - assert (Hrun : r = (Return tt, st,
                        [EvHttpGet (url self); EvLog WARNING "未获取到任何公告" []])).
    { subst r. unfold monitor. apply try_Return.
      by rewrite (bind_Return _ _ _ _ _ _ Hget). }
    by rewrite Hrun.
  - destruct (load_saved_notices_run st) as (t1 & Hload & Ht1).
    destruct (find_new_notices_nil (c :: current) (stored (data_file st)))
      as (Hsaved & Hnew); [done|done|].
    assert (Hrun : r = (Return tt, st,
                        [EvHttpGet (url self)] ++ t1 ++ [EvLog INFO "没有新公告" []])).
    { subst r. unfold monitor. apply try_Return.
      rewrite (bind_Return _ _ _ _ _ _ Hget). cbv beta iota delta [is_empty].
      rewrite (bind_Return _ _ _ _ _ _ Hload). by rewrite Hnew. }
    rewrite Hrun. unfold result_of, state_of, trace_of. simpl.
    split_and!; [done|done|]. by rewrite forallb_app, Ht1.
Qed.

(** C7.  Steady state with new notices, feishu raising: the exception is
    caught and logged inside [push_notifications], the OneBot call comes
    after it in the same cycle, the write of the active file comes after
    that, and the cycle ends normally with the active file holding the last
    [max_notices] entries of the saved notices followed by the new ones. *)
Theorem monitor_feishu_failure_isolated (w : world) (self : QFNUJWCGGMonitor)
    (st : store) (current : list Notice) (e : exn) :
  0 < max_notices self ->
  site w = Return current ->
  stored (data_file st) <> [] ->
  find_new_notices current (stored (data_file st)) <> [] ->
  (forall title content, feishu_hook w title content = Some e) ->
  let saved := stored (data_file st) in
  let new_notices := find_new_notices current saved in
  let all_notices := saved ++ new_notices in
  let kept := drop (length all_notices - Z.to_nat (max_notices self)) all_notices in
  let r := monitor w self st in
  result_of r = Return tt
  /\ data_file (state_of r) = Dumped kept
  /\ exists title content message before between after,
       trace_of r =
         before
         ++ [EvFeishu title content;
             EvLog ERROR "飞书推送失败: {e}" [PStr (exn_str e)];
             EvOnebotSendAll message]
         ++ between
         ++ EvWrite DataFile kept :: after.
Proof.
  intros Hmax Hsite Hsaved Hnew Hfeishu saved new_notices all_notices kept r.
  pose proof (get_notices_run w self current st Hsite) as Hget.
  destruct (load_saved_notices_run st) as (t1 & Hload & _).
  destruct (push_notifications_run w new_notices st Hnew) as (t2 & Hpush).
  rewrite Hfeishu in Hpush.
  destruct (append_new_notices_run self new_notices st) as (t3 & t4 & Happend).
  fold saved all_notices in Happend.
  rewrite (saved_store_data self all_notices st Hmax) in Happend.
  fold kept in Happend. cbn [stored] in Happend.
  assert (Hcur : current <> []).
  { intros ->. apply Hnew. unfold find_new_notices.
    by destruct (is_empty (stored (data_file st))). }
  assert (Hrun : r = (Return tt, saved_store self all_notices st,
                      ([EvHttpGet (url self)] ++ t1
                       ++ [EvLog INFO "发现{len(new_notices)}条新公告"
                             [PInt (len new_notices)]])
                      ++ [EvFeishu (batch_title new_notices) (batch_body new_notices);
                          EvLog ERROR "飞书推送失败: {e}" [PStr (exn_str e)];
                          EvOnebotSendAll (batch_message new_notices)]
                      ++ (t2 ++ t3)
                      ++ EvWrite DataFile kept :: t4)).
  { subst r. unfold monitor. apply try_Return.
    rewrite (bind_Return _ _ _ _ _ _ Hget).
    rewrite (is_empty_false current Hcur).
    rewrite (bind_Return _ _ _ _ _ _ Hload).
    fold saved. fold new_notices.
    rewrite (is_empty_false saved Hsaved), (is_empty_false new_notices Hnew).
    cbv beta iota zeta delta [negb].
    erewrite bind_Return by reflexivity.
    rewrite (bind_Return _ _ _ _ _ _ Hpush), Happend.
    unfold result_of, state_of, trace_of. cbn [fst snd]. f_equal.
    simpl. by rewrite <- !app_assoc. }
  rewrite Hrun. unfold result_of, state_of, trace_of. cbn [fst snd].
  split_and!; [done|by apply saved_store_data|].
  by eexists _, _, _, _, _, _.
Qed.

(** * The OneBot sender *)

Section Sender.
Context {S : Type}.
Variable w : world.

(** A reply whose JSON has [status == "ok"] is returned as it is. *)
Lemma send_group_message_ok self group_id message (s : S) body (d : gmap string pyval) :
  truthy (onebot_url self) = true ->
  http_post w (api_url self) (_build_headers self) (payload group_id message)
    = Return {| text := body; json := Return (PDict d) |} ->
  d !! "status" = Some (PStr "ok") ->
  result_of (send_group_message w self group_id message s) = Return d.
Proof.
  intros Hurl Hpost Hstatus. unfold send_group_message. rewrite Hurl.
  cbv beta iota zeta delta [negb]. fold (api_url self). fold (payload group_id message).
  unfold with_frame, try_except, bind, requests_post, emit. rewrite Hpost.
  simpl. by rewrite Hstatus.
Qed.

(** A JSON object with any other status gives [{"error": message}]. *)
Lemma send_group_message_failed self group_id message (s : S) body
    (d : gmap string pyval) :
  truthy (onebot_url self) = true ->
  http_post w (api_url self) (_build_headers self) (payload group_id message)
    = Return {| text := body; json := Return (PDict d) |} ->
  py_eq_str (default PNone (d !! "status")) "ok" = false ->
  result_of (send_group_message w self group_id message s)
    = Return {["error" := default (PStr "未知错误") (d !! "message")]}.
Proof.
  intros Hurl Hpost Hstatus. unfold send_group_message. rewrite Hurl.
  cbv beta iota zeta delta [negb]. fold (api_url self). fold (payload group_id message).
  unfold with_frame, try_except, bind, requests_post, emit. rewrite Hpost.
  simpl. by rewrite Hstatus.
Qed.

(** When the POST itself raises, the handler reads [result] before it was
    ever assigned, and that [UnboundLocalError] leaves the method. *)
Lemma send_group_message_post_raises self group_id message (s : S) e :
  truthy (onebot_url self) = true ->
  http_post w (api_url self) (_build_headers self) (payload group_id message)
    = Raise e ->
  send_group_message w self group_id message s =
    (Raise unbound_result, s,
     [EvHttpPost (api_url self) (_build_headers self) (payload group_id message)]).
Proof.
  intros Hurl Hpost. unfold send_group_message. rewrite Hurl.
  cbv beta iota zeta delta [negb]. fold (api_url self). fold (payload group_id message).
  unfold requests_post. unfold with_frame, try_except, bind, emit. rewrite Hpost.
  simpl. destruct (is_RequestException e), (is_JSONDecodeError e); reflexivity.
Qed.

(** The same when the body of the reply is not JSON. *)
Lemma send_group_message_json_raises self group_id message (s : S) body e :
  truthy (onebot_url self) = true ->
  http_post w (api_url self) (_build_headers self) (payload group_id message)
    = Return {| text := body; json := Raise e |} ->
  result_of (send_group_message w self group_id message s) = Raise unbound_result.
Proof.
  intros Hurl Hpost. unfold send_group_message. rewrite Hurl.
  cbv beta iota zeta delta [negb]. fold (api_url self). fold (payload group_id message).
  unfold requests_post. unfold with_frame, try_except, bind, emit. rewrite Hpost.
  simpl. destruct (is_RequestException e), (is_JSONDecodeError e); reflexivity.
Qed.
End Sender.

(** C8.  The claim fails on the code.  With the bot unreachable
    ([requests.post] raises [ConnectionError]) and with a reply that is not
    JSON ([response.json()] raises), [send_group_message] does not return an
    error dict: the [except] clause formats the local [result], which has
    not been assigned, and the call raises [UnboundLocalError]. *)
Theorem send_group_message_raises_unbound :
  result_of (send_group_message world_bot_down sender_1 "123456" (PStr "hello") tt)
    = Raise unbound_result
  /\ result_of (send_group_message world_not_json sender_1 "123456" (PStr "hello") tt)
    = Raise unbound_result.
Proof. split; reflexivity. Qed.

(** Seen from [onebot_send_all], that exception ends the fan-out at the
    first group: of two configured groups one is posted to, and the wrapper
    reports the [UnboundLocalError] as its error. *)
Example onebot_send_all_stops_at_first_failure :
  _parse_target_groups world_two_groups_down = ["111"; "222"]
  /\ length (filter is_post
               (trace_of (onebot_send_all world_two_groups_down (PStr "hello") tt))) = 1%nat
  /\ result_of (onebot_send_all world_two_groups_down (PStr "hello") tt)
     = Return {["error" := PStr ("OneBot发送失败: " +:+ exn_str unbound_result)]}.
Proof. split_and!; by vm_compute. Qed.

(** C9.  Constructing the sender raises exactly when [ONEBOT_HTTP_URL] is
    absent or empty.  With the URL set and [ONEBOT_TARGET_GROUPS] absent it
    returns a sender without targets, after one warning.  When construction
    fails, [onebot_send_all] returns a dict with the key ["error"] and
    raises nothing. *)
Theorem OneBotSender_init_config {S : Type} (w : world) (s : S) (message : pyval) :
  let http_url := environ w !! "ONEBOT_HTTP_URL" in
  ((exists e, result_of (OneBotSender_init w s) = Raise e)
     <-> http_url = None \/ http_url = Some "")
  /\ (truthy http_url = true ->
      environ w !! "ONEBOT_TARGET_GROUPS" = None ->
      OneBotSender_init w s =
        (Return {| onebot_url := http_url;
                   access_token := environ w !! "ONEBOT_ACCESS_TOKEN";
                   target_groups := [] |}, s,
         [EvLog WARNING "未配置目标群组，请设置环境变量 ONEBOT_TARGET_GROUPS" []]))
  /\ (truthy http_url = false ->
      exists d, result_of (onebot_send_all w message s) = Return d
                /\ has_key "error" d = true).
Proof.
  intros http_url. split_and!.
  - unfold OneBotSender_init, bind, log, emit, raise, ret, result_of. simpl.
    fold http_url. destruct http_url as [[|c u]|]; simpl.
    + split; [by right|by eexists].
    + split; [by intros [e He]; destruct (is_empty _)|by intros [|]].
    + split; [by left|by eexists].
  - intros Hurl Hgroups.
    unfold OneBotSender_init, _parse_target_groups, bind, log, emit, raise, ret.
    simpl. fold http_url. by rewrite Hurl, Hgroups.
  - intros Hurl.
    unfold onebot_send_all, OneBotSender_init, try_except, bind, log, emit, raise, ret,
      result_of.
    simpl. fold http_url. rewrite Hurl. simpl. by eexists.
Qed.

(** C10.  A sender without target groups answers [send_to_all_groups] with
    the dict whose only key is ["error"], after one warning and without any
    POST; and when the environment yields no target group, [onebot_send_all]
    returns a dict whose only key is ["error"], again without any POST. *)
Theorem send_to_all_groups_no_targets {S : Type} (w : world) (self : OneBotSender)
    (message : pyval) (s : S) :
  target_groups self = [] ->
  _parse_target_groups w = [] ->
  send_to_all_groups w self message s =
    (Return {["error" := PStr "没有配置目标群组"]}, s,
     [EvLog WARNING "没有配置目标群组" []])
  /\ exists reason t,
       onebot_send_all w message s =
         (Return {["error" := PStr reason]}, s, EvOnebotSendAll message :: t)
       /\ forallb (fun ev => negb (is_post ev)) t = true.
Proof.
  intros Hself Hw. split.
  - unfold send_to_all_groups. by rewrite Hself.
  - unfold onebot_send_all, OneBotSender_init, send_to_all_groups, try_except, bind,
      log, emit, raise, ret.
    simpl. rewrite Hw.
    destruct (truthy (environ w !! "ONEBOT_HTTP_URL")); simpl; by eexists _, _.
Qed.

(** * The theorems at the sample inputs *)

(** Window of two, three notices to save: B and C stay, A is archived. *)
Lemma save_notices_window_witness :
  0 < max_notices monitor_2
  /\ data_file (state_of (save_notices monitor_2 [notice_A; notice_B; notice_C] store_empty))
     = Dumped [notice_B; notice_C]
  /\ archive_file (state_of (save_notices monitor_2 [notice_A; notice_B; notice_C] store_empty))
     = Dumped [notice_A].
Proof.
  assert (Hmax : 0 < max_notices monitor_2) by reflexivity.
  split; [exact Hmax|].
  destruct (save_notices_window monitor_2 [notice_A; notice_B; notice_C] store_empty Hmax)
    as (_ & Hdata & _ & _ & Harchive & _).
  split; [exact Hdata|exact Harchive].
Defined.

(** No store yet, the page lists A and B. *)
Lemma monitor_first_run_witness :
  0 < max_notices QFNUJWCGGMonitor_init
  /\ site world_down = Return [notice_A; notice_B]
  /\ stored (data_file store_empty) = []
  /\ data_file (state_of (monitor world_down QFNUJWCGGMonitor_init store_empty))
     = Dumped [notice_A; notice_B].
Proof.
  assert (Hmax : 0 < max_notices QFNUJWCGGMonitor_init) by reflexivity.
  split_and!; [exact Hmax|reflexivity|reflexivity|].
  refine (proj1 (proj2 (monitor_first_run world_down QFNUJWCGGMonitor_init store_empty
                          [notice_A; notice_B] Hmax eq_refl _ eq_refl))).
  discriminate.
Defined.

(** The store holds A, B and C and the page lists A and B. *)
Lemma monitor_no_new_notices_witness :
  let st := {| data_file := Dumped [notice_A; notice_B; notice_C]; archive_file := Missing |} in
  site world_down = Return [notice_A; notice_B]
  /\ state_of (monitor world_down QFNUJWCGGMonitor_init st) = st
  /\ forallb quiet (trace_of (monitor world_down QFNUJWCGGMonitor_init st)) = true.
Proof.
  intros st. split; [reflexivity|].
  refine (proj2 (monitor_no_new_notices world_down QFNUJWCGGMonitor_init st
                   [notice_A; notice_B] eq_refl _)).
  apply (bool_decide_unpack _). by vm_compute.
Defined.

(** The store holds C and A, the page lists A and B, feishu is down: B is
    new, the window of two keeps A and B. *)
Lemma monitor_feishu_failure_isolated_witness :
  0 < max_notices monitor_2
  /\ find_new_notices [notice_A; notice_B] (stored (data_file store_CA)) = [notice_B]
  /\ feishu_hook world_bot_down "" "" = Some connection_refused
  /\ data_file (state_of (monitor world_bot_down monitor_2 store_CA))
     = Dumped [notice_A; notice_B].
Proof.
  assert (Hmax : 0 < max_notices monitor_2) by reflexivity.
  assert (Hnew : find_new_notices [notice_A; notice_B] (stored (data_file store_CA))
                 = [notice_B]) by (by vm_compute).
  split_and!; [exact Hmax|exact Hnew|reflexivity|].
  refine (proj1 (proj2 (monitor_feishu_failure_isolated world_bot_down monitor_2 store_CA
                          [notice_A; notice_B] connection_refused Hmax eq_refl _ _ _))).
  - discriminate.
  - rewrite Hnew. discriminate.
  - reflexivity.
Defined.

(** Nothing configured: construction raises and the wrapper reports it.
    Only the URL configured: a sender without targets. *)
Lemma OneBotSender_init_config_witness :
  (exists e, result_of (OneBotSender_init world_down tt) = Raise e)
  /\ (exists d, result_of (onebot_send_all world_down (PStr "hello") tt) = Return d
                /\ has_key "error" d = true)
  /\ result_of (OneBotSender_init world_not_json tt) = Return sender_no_groups.
Proof.
  split_and!.
  - apply (proj1 (OneBotSender_init_config world_down tt PNone)). by left.
  - apply (proj2 (proj2 (OneBotSender_init_config world_down tt (PStr "hello")))).
    reflexivity.
  - by rewrite (proj1 (proj2 (OneBotSender_init_config world_not_json tt PNone))
                  eq_refl eq_refl).
Defined.

(** Only the URL configured: the wrapper answers with the error dict. *)
Lemma send_to_all_groups_no_targets_witness :
  target_groups sender_no_groups = []
  /\ _parse_target_groups world_not_json = []
  /\ result_of (send_to_all_groups world_not_json sender_no_groups (PStr "hello") tt)
     = Return {["error" := PStr "没有配置目标群组"]}.
Proof.
  split_and!; [reflexivity|reflexivity|].
  by rewrite (proj1 (send_to_all_groups_no_targets world_not_json sender_no_groups
                       (PStr "hello") tt eq_refl eq_refl)).
Defined.

(** * More on the notice store *)

#[local] Set Warnings "-clear-no-such-hyp".

Lemma is_empty_true {A} (l : list A) : is_empty l = true -> l = [].
Proof. by destruct l. Qed.

Lemma saved_store_conserves (self : QFNUJWCGGMonitor) (notices : list Notice)
    (st : store) :
  stored (archive_file (saved_store self notices st))
    ++ stored (data_file (saved_store self notices st))
  = stored (archive_file st) ++ notices.
Proof.
  unfold saved_store. cbn [data_file archive_file stored].
  pose proof (slice_to_from notices (- max_notices self)) as Hsplit.
  destruct (max_notices self <? len notices); [|done].
  destruct (is_empty (slice_to notices (- max_notices self))) eqn:Hempty; simpl.
  - apply is_empty_true in Hempty. rewrite Hempty in Hsplit. simpl in Hsplit.
    by rewrite Hsplit.
  - by rewrite <- app_assoc, Hsplit.
Qed.

Lemma saved_store_archive_grows (self : QFNUJWCGGMonitor) (notices : list Notice)
    (st : store) :
  stored (archive_file st) `prefix_of` stored (archive_file (saved_store self notices st)).
Proof.
  unfold saved_store. cbn [archive_file].
  destruct (_ && _); [|done]. simpl. by apply prefix_app_r.
Qed.

Lemma save_notices_state (self : QFNUJWCGGMonitor) (notices : list Notice) (st : store) :
  state_of (save_notices self notices st) = saved_store self notices st.
Proof. by destruct (save_notices_run self notices st) as (t & -> & _). Qed.

Lemma append_new_notices_state (self : QFNUJWCGGMonitor) (new_notices : list Notice)
    (st : store) :
  state_of (append_new_notices self new_notices st)
  = saved_store self (stored (data_file st) ++ new_notices) st.
Proof. by destruct (append_new_notices_run self new_notices st) as (t1 & t2 & ->). Qed.

(** X1.  Whatever [max_notices] is, [save_notices] loses nothing: archive
    and active file together hold, in order, what the archive held followed
    by the sequence given; and the archive only grows at its end. *)
Theorem save_notices_keeps_everything (self : QFNUJWCGGMonitor)
    (notices : list Notice) (st : store) :
  let st' := state_of (save_notices self notices st) in
  stored (archive_file st') ++ stored (data_file st')
    = stored (archive_file st) ++ notices
  /\ stored (archive_file st) `prefix_of` stored (archive_file st').
Proof.
  intros st'. subst st'. rewrite save_notices_state.
  split; [apply saved_store_conserves|apply saved_store_archive_grows].
Qed.

(** X2.  What [load_archived_notices] returns after [archive_notices l] is
    what it returned before followed by [l] (for the empty [l] too); the
    active file is not touched. *)
Theorem archive_then_load (l : list Notice) (st : store) :
  let st' := state_of (archive_notices l st) in
  result_of (load_archived_notices st') = Return (stored (archive_file st) ++ l)
  /\ result_of (load_archived_notices st) = Return (stored (archive_file st))
  /\ data_file st' = data_file st.
Proof.
  intros st'. subst st'.
  destruct (archive_notices_run l st) as (t & -> & _).
  destruct (load_archived_notices_run st) as (t0 & -> & _).
  unfold state_of. cbn [fst snd].
  destruct l as [|n l]; cbn [is_empty].
  - destruct (load_archived_notices_run st) as (t1 & -> & _).
    by rewrite app_nil_r.
  - set (st1 := {| data_file := _; archive_file := _ |}).
    by destruct (load_archived_notices_run st1) as (t1 & -> & _).
Qed.

(** X3.  A sequence that fits the window comes back from
    [load_saved_notices] exactly as [save_notices] was given it, and saving
    it leaves the archive file alone. *)
Theorem save_then_load (self : QFNUJWCGGMonitor) (notices : list Notice) (st : store) :
  len notices <= max_notices self ->
  let st' := state_of (save_notices self notices st) in
  result_of (load_saved_notices st') = Return notices
  /\ archive_file st' = archive_file st.
Proof.
  intros Hfit st'. subst st'. rewrite save_notices_state.
  destruct (load_saved_notices_run (saved_store self notices st)) as (t & -> & _).
  unfold saved_store, result_of. cbn [fst data_file archive_file stored].
  by destruct (Z.ltb_spec (max_notices self) (len notices)); [lia|].
Qed.

(** X4.  With a positive window, [append_new_notices] leaves in the active
    file the last [max_notices] entries of the stored notices followed by
    the new ones, at most [max_notices] many, and what it cut off is at the
    end of the archive: archive and active file together are the old archive,
    the old active notices and the new ones, in that order. *)
Theorem append_new_notices_window (self : QFNUJWCGGMonitor) (new_notices : list Notice)
    (st : store) :
  0 < max_notices self ->
  let n := Z.to_nat (max_notices self) in
  let all_notices := stored (data_file st) ++ new_notices in
  let r := append_new_notices self new_notices st in
  result_of r = Return tt
  /\ data_file (state_of r) = Dumped (last_n n all_notices)
  /\ (length (last_n n all_notices) <= n)%nat
  /\ stored (archive_file (state_of r)) ++ last_n n all_notices
     = stored (archive_file st) ++ all_notices.
Proof.
  intros Hmax n all_notices r.
  destruct (append_new_notices_run self new_notices st) as (t1 & t2 & Hrun).
  pose proof (saved_store_data self all_notices st Hmax) as Hdata.
  pose proof (saved_store_conserves self all_notices st) as Hall.
  subst r. rewrite Hrun. unfold result_of, state_of. cbn [fst snd].
  fold all_notices. rewrite Hdata in Hall. cbn [stored] in Hall.
  split_and!; [done|exact Hdata| |exact Hall].
  unfold last_n. rewrite length_drop. lia.
Qed.

(** Window of two holding A and B, C appended: B and C stay, A goes to the
    archive. *)
Lemma append_new_notices_window_witness :
  0 < max_notices monitor_2
  /\ data_file (state_of (append_new_notices monitor_2 [notice_C]
                            {| data_file := Dumped [notice_A; notice_B];
                               archive_file := Missing |}))
     = Dumped [notice_B; notice_C]
  /\ stored (archive_file (state_of (append_new_notices monitor_2 [notice_C]
                            {| data_file := Dumped [notice_A; notice_B];
                               archive_file := Missing |})))
       ++ [notice_B; notice_C]
     = [notice_A; notice_B; notice_C].
Proof.
  assert (Hmax : 0 < max_notices monitor_2) by reflexivity.
  split; [exact Hmax|].
  destruct (append_new_notices_window monitor_2 [notice_C]
              {| data_file := Dumped [notice_A; notice_B]; archive_file := Missing |} Hmax)
    as (_ & Hdata & _ & Hall).
  split; [exact Hdata|exact Hall].
Defined.

(** Thirty is the window; two notices fit. *)
Lemma save_then_load_witness :
  len [notice_A; notice_B] <= max_notices QFNUJWCGGMonitor_init
  /\ result_of (load_saved_notices
                  (state_of (save_notices QFNUJWCGGMonitor_init [notice_A; notice_B]
                               store_empty)))
     = Return [notice_A; notice_B].
Proof.
  assert (Hfit : len [notice_A; notice_B] <= max_notices QFNUJWCGGMonitor_init)
    by (by vm_compute).
  split; [exact Hfit|].
  exact (proj1 (save_then_load QFNUJWCGGMonitor_init [notice_A; notice_B] store_empty Hfit)).
Defined.

(** * More on change detection *)

(** X5.  The new notices are a subsequence of the current ones, in page
    order, and a current notice is among them exactly when nothing is saved
    or its title is not the title of a saved notice; a current notice is
    never judged by its link or date. *)
Theorem find_new_notices_sublist (current saved : list Notice) :
  find_new_notices current saved `sublist_of` current
  /\ forall notice,
       notice ∈ find_new_notices current saved
       <-> notice ∈ current /\ (saved = [] \/ title notice ∉ title <$> saved).
Proof.
  destruct saved as [|s saved].
  - split; [done|]. intros notice. simpl.
    split; [intros Hin; split; [done|by left]|by intros [Hin _]].
  - rewrite find_new_notices_nonempty by done. split; [apply sublist_filter|].
    intros notice. rewrite list_elem_of_filter, elem_of_list_to_set.
    split; [intros [Hfresh Hin]; split; [done|by right]|].
    by intros [Hin [Hnil|Hfresh]].
Qed.

Lemma find_new_notices_of_nil (saved : list Notice) : find_new_notices [] saved = [].
Proof. by destruct saved. Qed.

Lemma titles_covered (current saved : list Notice) :
  (list_to_set (title <$> current) : gset string)
    ⊆ list_to_set (title <$> (saved ++ find_new_notices current saved)).
Proof.
  intros t. rewrite !elem_of_list_to_set, fmap_app, elem_of_app, !list_elem_of_fmap.
  intros (notice & -> & Hin).
  destruct saved as [|s saved]; [right; by exists notice|].
  destruct (decide (title notice ∈ title <$> s :: saved)) as [Hold|Hfresh].
  - left. by apply list_elem_of_fmap in Hold.
  - right. exists notice. split; [done|].
    rewrite find_new_notices_nonempty by done.
    apply list_elem_of_filter. split; [|done]. by rewrite elem_of_list_to_set.
Qed.

(** X6.  Once the new notices are put behind the saved ones, none of the
    current notices is new any more. *)
Theorem find_new_notices_settles (current saved : list Notice) :
  find_new_notices current (saved ++ find_new_notices current saved) = [].
Proof.
  destruct current as [|c current]; [by rewrite !find_new_notices_of_nil|].
  by apply find_new_notices_nil; [|apply titles_covered].
Qed.

(** * What a run emits *)

Section Traces.
Context {S : Type}.

Lemma emits_only_ret {A} p (a : A) : emits_only (S:=S) p (ret a).
Proof. done. Qed.

Lemma emits_only_raise {A} p e : emits_only (S:=S) p (raise (A:=A) e).
Proof. done. Qed.

Lemma emits_only_get p : emits_only (S:=S) p get.
Proof. done. Qed.

Lemma emits_only_modify p (g : S -> S) : emits_only p (modify g).
Proof. done. Qed.

Lemma emits_only_emit (p : event -> bool) ev :
  p ev = true -> emits_only (S:=S) p (emit ev).
Proof. intros H s. unfold trace_of. simpl. by rewrite H. Qed.

Lemma emits_only_log (p : event -> bool) lvl fmt args :
  p (EvLog lvl fmt args) = true -> emits_only (S:=S) p (log lvl fmt args).
Proof. apply emits_only_emit. Qed.

Lemma emits_only_bind {A B} p (c : M S A) (k : A -> M S B) :
  emits_only p c -> (forall a, emits_only p (k a)) -> emits_only p (bind c k).
Proof.
  intros Hc Hk s. specialize (Hc s). unfold bind.
  destruct (c s) as [[[a|e] s1] t1]; [|done].
  specialize (Hk a s1). destruct (k a s1) as [[r s2] t2].
  unfold trace_of in *. simpl in *. rewrite forallb_app. by rewrite Hc, Hk.
Qed.

Lemma emits_only_try {A} p (c : M S A) h :
  emits_only p c -> (forall e, emits_only p (h e)) -> emits_only p (try_except c h).
Proof.
  intros Hc Hh s. specialize (Hc s). unfold try_except.
  destruct (c s) as [[[a|e] s1] t1]; [done|].
  specialize (Hh e s1). destruct (h e s1) as [[r s2] t2].
  unfold trace_of in *. simpl in *. rewrite forallb_app. by rewrite Hc, Hh.
Qed.
End Traces.

#[export] Hint Resolve emits_only_ret emits_only_raise emits_only_get
  emits_only_modify : runs.

(** Splits a goal about the trace of a sequence of statements. *)
Ltac step_trace :=
  repeat first
    [ done
    | solve [auto with runs]
    | apply emits_only_log; reflexivity
    | apply emits_only_emit; reflexivity
    | apply emits_only_bind; [|intros ?]
    | apply emits_only_try; [|intros ?] ].

Section TransportTrace.
Context {S : Type}.
Variable w : world.

Lemma requests_post_trace {T} api_url headers data :
  emits_only (S:=T) log_or_post (requests_post w api_url headers data).
Proof.
  unfold requests_post. apply emits_only_bind; [by apply emits_only_emit|]. intros _.
  destruct (http_post w api_url headers data); done.
Qed.

Lemma response_json_trace {T} p (r : response) : emits_only (S:=T) p (response_json r).
Proof. unfold response_json. destruct (json r); done. Qed.

Lemma read_result_trace p : emits_only (S:=S * frame) p read_result.
Proof.
  unfold read_result. apply emits_only_bind; [done|]. intros sf.
  destruct (sf.2); done.
Qed.

Lemma with_frame_trace {A} p (c : M (S * frame) A) :
  emits_only p c -> emits_only (S:=S) p (with_frame c).
Proof.
  intros Hc s. specialize (Hc (s, None)). unfold with_frame.
  by destruct (c (s, None)) as [[r sf] t].
Qed.

Hint Resolve requests_post_trace response_json_trace read_result_trace : runs.

Lemma send_group_message_trace self group_id message :
  emits_only (S:=S) log_or_post (send_group_message w self group_id message).
Proof.
  unfold send_group_message.
  destruct (negb (truthy (onebot_url self))); [done|].
  apply with_frame_trace, emits_only_try.
  - repeat (apply emits_only_bind; [step_trace|]; intros ?).
    destruct a1 as [| | | | |d]; [done..|].
    destruct (py_eq_str _ _); step_trace.
  - intros e. destruct (is_RequestException e), (is_JSONDecodeError e); step_trace.
Qed.

Lemma send_loop_trace self message groups results success_count :
  emits_only (S:=S) log_or_post
    (send_loop w self message groups results success_count).
Proof.
  revert results success_count.
  induction groups as [|g groups IH]; intros results success_count; simpl; [done|].
  apply emits_only_bind; [apply send_group_message_trace|]. intros result. apply IH.
Qed.

Lemma OneBotSender_init_trace : emits_only (S:=S) log_or_post (OneBotSender_init w).
Proof.
  unfold OneBotSender_init. simpl.
  repeat (apply emits_only_bind; [|intros ?]); [| |done].
  - destruct (negb _); step_trace.
  - destruct (is_empty _); step_trace.
Qed.

Lemma send_to_all_groups_trace self message :
  emits_only (S:=S) log_or_post (send_to_all_groups w self message).
Proof.
  unfold send_to_all_groups.
  destruct (is_empty _); [step_trace|].
  apply emits_only_bind; [apply send_loop_trace|]. intros [results success_count].
  destruct (0 <? success_count); step_trace.
Qed.

Lemma send_to_specific_groups_trace self group_ids message :
  emits_only (S:=S) log_or_post (send_to_specific_groups w self group_ids message).
Proof.
  unfold send_to_specific_groups.
  destruct (is_empty _); [step_trace|].
  apply emits_only_bind; [apply send_loop_trace|]. intros [results success_count].
  step_trace.
Qed.

Lemma send_to_specific_groups_stable self group_ids message :
  stable (S:=S) id (send_to_specific_groups w self group_ids message).
Proof.
  unfold send_to_specific_groups.
  destruct (is_empty _); [step_runs|].
  apply stable_bind; [apply send_loop_stable|]. intros [results success_count].
  step_runs.
Qed.

(** [onebot_send_all] with its trace: after the call itself only log records
    and POSTs. *)
Lemma onebot_send_all_trace (message : pyval) (s : S) :
  exists d t,
    onebot_send_all w message s = (Return d, s, EvOnebotSendAll message :: t)
    /\ forallb log_or_post t = true.
Proof.
  destruct (onebot_send_all_run w message s) as (d & t & Hrun).
  exists d, t. split; [done|].
  assert (Hbody : emits_only (S:=S) log_or_post
            (try_except
               (sender <- OneBotSender_init w ;; send_to_all_groups w sender message)
               (fun e =>
                  let error_msg := "OneBot发送失败: " +:+ exn_str e in
                  log ERROR error_msg [] ;;
                  ret {["error" := PStr error_msg]}))).
  { apply emits_only_try.
    - apply emits_only_bind; [apply OneBotSender_init_trace|].
      intros sender. apply send_to_all_groups_trace.
    - intros e. step_trace. }
  specialize (Hbody s). unfold onebot_send_all, bind, emit in Hrun.
  destruct (try_except _ _ s) as [[r s1] t1]. unfold trace_of in Hbody. simpl in *.
  destruct r; by simplify_eq.
Qed.
End TransportTrace.

(** * The cycle as a whole *)

Lemma count_app (p : event -> bool) (t1 t2 : list event) :
  count p (t1 ++ t2) = (count p t1 + count p t2)%nat.
Proof. unfold count. by rewrite List.filter_app, length_app. Qed.

Lemma count_none (p q : event -> bool) (t : list event) :
  (forall ev, q ev = true -> p ev = false) -> forallb q t = true -> count p t = 0%nat.
Proof.
  intros Hqp. unfold count. induction t as [|ev t IH]; [done|]. simpl.
  intros [Hev Ht]%andb_prop. rewrite (Hqp ev Hev). by apply IH.
Qed.

Lemma quiet_not_feishu ev : quiet ev = true -> is_feishu ev = false.
Proof. by destruct ev. Qed.

Lemma quiet_not_send_all ev : quiet ev = true -> is_send_all ev = false.
Proof. by destruct ev. Qed.

Lemma silent_not_feishu ev : negb (is_transport ev) = true -> is_feishu ev = false.
Proof. by destruct ev. Qed.

Lemma silent_not_send_all ev : negb (is_transport ev) = true -> is_send_all ev = false.
Proof. by destruct ev. Qed.

Lemma sender_not_feishu ev : log_or_post ev = true -> is_feishu ev = false.
Proof. by destruct ev. Qed.

Lemma sender_not_send_all ev : log_or_post ev = true -> is_send_all ev = false.
Proof. by destruct ev. Qed.

Section WholeCycle.
Variable w : world.
Variable self : QFNUJWCGGMonitor.

Lemma push_to_onebot_trace (new_notices : list Notice) (st : store) :
  new_notices <> [] ->
  exists sent,
    push_to_onebot w new_notices st =
      (Return tt, st, EvOnebotSendAll (batch_message new_notices) :: sent)
    /\ forallb log_or_post sent = true.
Proof.
  intros Hnew. destruct new_notices as [|n l]; [done|].
  unfold push_to_onebot. cbv beta iota delta [is_empty].
  fold (batch_message (n :: l)).
  destruct (onebot_send_all_trace w (batch_message (n :: l)) st) as (d & t & Hsend & Ht).
  rewrite (bind_Return _ _ _ _ _ _ Hsend).
  destruct (has_key "error" d); eexists; (split; [reflexivity|]);
    rewrite forallb_app, Ht; reflexivity.
Qed.

Lemma push_notifications_trace (new_notices : list Notice) (st : store) :
  new_notices <> [] ->
  exists sent,
    push_notifications w new_notices st = (Return tt, st, push_trace w new_notices sent)
    /\ forallb log_or_post sent = true.
Proof.
  intros Hnew.
  destruct (push_to_onebot_trace new_notices st Hnew) as (sent & Honebot & Hsent).
  exists sent. split; [|done]. unfold push_notifications, push_trace, feishu_log.
  rewrite (is_empty_false new_notices Hnew).
  pose proof (push_to_feishu_run w new_notices st Hnew) as Hfeishu.
  destruct (feishu_hook w _ _) as [e|].
  - erewrite bind_Return; [|by erewrite try_Raise by exact Hfeishu].
    by rewrite (try_Return _ _ _ _ _ _ Honebot).
  - erewrite bind_Return; [|by erewrite try_Return by exact Hfeishu].
    by rewrite (try_Return _ _ _ _ _ _ Honebot).
Qed.

(** A cycle that finds nothing new, for whatever reason. *)
Lemma monitor_quiet_run (st : store) :
  cycle_new w st = [] ->
  exists t, monitor w self st = (Return tt, st, t) /\ forallb quiet t = true.
Proof.
  unfold cycle_new, monitor, get_notices. intros Hnew.
  destruct (site w) as [current|e] eqn:Hsite.
  - destruct current as [|c current]; [by eexists|].
    destruct (load_saved_notices_run st) as (t1 & Hload & Ht1).
    exists ([EvHttpGet (url self)] ++ t1 ++ [EvLog INFO "没有新公告" []]). split.
    + apply try_Return. erewrite bind_Return by reflexivity.
      cbv beta iota delta [is_empty].
      rewrite (bind_Return _ _ _ _ _ _ Hload). by rewrite Hnew.
    + simpl. by rewrite forallb_app, Ht1.
  - by eexists.
Qed.

(** A cycle that finds something new: first run or steady state. *)
Lemma monitor_new_run (st : store) (current saved new_notices : list Notice) :
  site w = Return current ->
  saved = stored (data_file st) ->
  new_notices = find_new_notices current saved ->
  new_notices <> [] ->
  exists head sent tail,
    monitor w self st =
      (Return tt, saved_store self (saved ++ new_notices) st,
       head
       ++ (if is_empty saved then [] else push_trace w new_notices sent)
       ++ tail)
    /\ forallb quiet head = true
    /\ forallb log_or_post sent = true
    /\ forallb (fun ev => negb (is_transport ev)) tail = true.
Proof.
  intros Hsite Hsaved Hnew_eq Hnew.
  pose proof (get_notices_run w self current st Hsite) as Hget.
  destruct (load_saved_notices_run st) as (t1 & Hload & Ht1).
  rewrite <- Hsaved in Hload.
  assert (Hcur : current <> []).
  { intros ->. apply Hnew. rewrite Hnew_eq. apply find_new_notices_of_nil. }
  destruct (save_notices_run self (saved ++ new_notices) st) as (t2 & Hsave & Ht2).
  destruct saved as [|s0 saved'].
  - assert (Hall : new_notices = current) by (by rewrite Hnew_eq).
    cbn [app is_empty] in *. rewrite Hall in *.
    exists ([EvHttpGet (url self)] ++ t1
            ++ [EvLog INFO
                  "首次运行曲阜师范大学教务处公告监控器，初始化{len(new_notices)}条公告数据，不推送消息"
                  [PInt (len current)]]), [],
           (EvWrite DataFile (stored (data_file (saved_store self current st))) :: t2).
    split_and!; [|by simpl; rewrite forallb_app, Ht1|done|exact Ht2].
    unfold monitor. apply try_Return.
    rewrite (bind_Return _ _ _ _ _ _ Hget), (is_empty_false current Hcur).
    rewrite (bind_Return _ _ _ _ _ _ Hload). rewrite <- Hnew_eq.
    cbn [is_empty]. rewrite (is_empty_false current Hcur). cbv beta iota zeta delta [negb].
    erewrite bind_Return by reflexivity. rewrite Hsave.
    unfold result_of, state_of, trace_of. cbn [fst snd]. f_equal.
    by rewrite <- !app_assoc.
  - destruct (push_notifications_trace new_notices st Hnew) as (sent & Hpush & Hsent).
    assert (Happend : append_new_notices self new_notices st =
              (Return tt, saved_store self ((s0 :: saved') ++ new_notices) st,
               t1 ++ EvWrite DataFile
                       (stored (data_file
                          (saved_store self ((s0 :: saved') ++ new_notices) st)))
                     :: t2)).
    { unfold append_new_notices. by rewrite (bind_Return _ _ _ _ _ _ Hload), Hsave. }
    exists ([EvHttpGet (url self)] ++ t1
            ++ [EvLog INFO "发现{len(new_notices)}条新公告" [PInt (len new_notices)]]),
           sent,
           (t1 ++ EvWrite DataFile
                    (stored (data_file
                       (saved_store self ((s0 :: saved') ++ new_notices) st)))
                  :: t2).
    split_and!; [|by simpl; rewrite forallb_app, Ht1|done|].
    + unfold monitor. apply try_Return.
      rewrite (bind_Return _ _ _ _ _ _ Hget), (is_empty_false current Hcur).
      rewrite (bind_Return _ _ _ _ _ _ Hload). rewrite <- Hnew_eq.
      cbn [is_empty]. rewrite (is_empty_false new_notices Hnew).
      cbv beta iota zeta delta [negb].
      erewrite bind_Return by reflexivity.
      rewrite (bind_Return _ _ _ _ _ _ Hpush), Happend.
      unfold result_of, state_of, trace_of. cbn [fst snd]. f_equal.
      by rewrite <- !app_assoc.
    + rewrite forallb_app, (forallb_weaken _ _ _ quiet_no_transport Ht1). simpl.
      exact Ht2.
Qed.

(** Every cycle returns, and the store it leaves is [cycle_store]. *)
Lemma monitor_run (st : store) :
  exists t, monitor w self st = (Return tt, cycle_store w self st, t).
Proof.
  unfold cycle_store.
  destruct (is_empty (cycle_new w st)) eqn:Hnew.
  - apply is_empty_true in Hnew.
    destruct (monitor_quiet_run st Hnew) as (t & Hrun & _). by exists t.
  - unfold cycle_new in *. destruct (site w) as [current|e] eqn:Hsite; [|done].
    destruct (monitor_new_run st current _ _ Hsite eq_refl eq_refl)
      as (head & sent & tail & Hrun & _).
    { by intros Heq; rewrite Heq in Hnew. }
    by eexists.
Qed.
End WholeCycle.

Lemma string_app_assoc (a b c : string) : (a +:+ b) +:+ c = a +:+ (b +:+ c).
Proof.
  induction a as [|x a IH]; [done|].
  change (String x ((a +:+ b) +:+ c) = String x (a +:+ (b +:+ c))). by rewrite IH.
Qed.

Lemma string_app_nil_r (a : string) : a +:+ "" = a.
Proof.
  induction a as [|x a IH]; [done|].
  change (String x (a +:+ "") = String x a). by rewrite IH.
Qed.

Lemma batch_message_eq (new_notices : list Notice) :
  batch_message new_notices
  = PStr (batch_title new_notices +:+ nl +:+ nl +:+ batch_body new_notices).
Proof. unfold batch_message, batch_title, batch_body. by rewrite !string_app_assoc. Qed.

Lemma cycle_store_data_fits (w : world) (self : QFNUJWCGGMonitor) (st : store) :
  len (stored (data_file st) ++ cycle_new w st) <= max_notices self ->
  stored (data_file (cycle_store w self st)) = stored (data_file st) ++ cycle_new w st.
Proof.
  intros Hfit. unfold cycle_store.
  destruct (is_empty (cycle_new w st)) eqn:Hnew.
  - apply is_empty_true in Hnew. by rewrite Hnew, app_nil_r.
  - unfold saved_store. cbn [data_file stored].
    by destruct (Z.ltb_spec (max_notices self)
                   (len (stored (data_file st) ++ cycle_new w st))); [lia|].
Qed.

(** X7.  A cycle never raises, whatever the page, the store, feishu and the
    bot's endpoint do; neither does [run]. *)
Theorem monitor_never_raises (w : world) (self : QFNUJWCGGMonitor) :
  never_raises (monitor w self) /\ never_raises (run w self).
Proof.
  assert (Hmon : never_raises (monitor w self)).
  { intros st. by destruct (monitor_run w self st) as (t & ->). }
  split; [done|]. unfold run. by apply never_raises_bind.
Qed.

(** X8.  When fetching the page raises, the cycle logs the error and ends:
    the store is as before, nothing is read or written, no transport is
    called. *)
Theorem monitor_fetch_failure (w : world) (self : QFNUJWCGGMonitor) (st : store)
    (e : exn) :
  site w = Raise e ->
  monitor w self st =
    (Return tt, st,
     [EvHttpGet (url self); EvLog ERROR "监控过程发生错误: {e}" [PStr (exn_str e)]]).
Proof.
  intros Hsite. unfold monitor, get_notices, try_except, bind, emit, log.
  by rewrite Hsite.
Qed.

Lemma monitor_fetch_failure_witness :
  site world_offline = Raise connection_refused
  /\ state_of (monitor world_offline QFNUJWCGGMonitor_init store_CA) = store_CA.
Proof.
  split; [reflexivity|].
  by rewrite (monitor_fetch_failure world_offline QFNUJWCGGMonitor_init store_CA
                connection_refused eq_refl).
Defined.

(** X9.  No cycle loses a stored notice, whatever [max_notices] is: after
    it, archive and active file together hold what they held before followed
    by the notices the cycle found new, the archive has only grown at its
    end, and the new notices all come from the page. *)
Theorem monitor_keeps_everything (w : world) (self : QFNUJWCGGMonitor) (st : store) :
  let st' := state_of (monitor w self st) in
  stored (archive_file st') ++ stored (data_file st')
    = stored (archive_file st) ++ stored (data_file st) ++ cycle_new w st
  /\ stored (archive_file st) `prefix_of` stored (archive_file st')
  /\ forall notice, notice ∈ cycle_new w st ->
       exists current, site w = Return current /\ notice ∈ current.
Proof.
  intros st'. subst st'. destruct (monitor_run w self st) as (t & ->).
  unfold state_of, cycle_store. cbn [fst snd]. split_and!.
  - destruct (is_empty (cycle_new w st)) eqn:Hnew.
    + apply is_empty_true in Hnew. by rewrite Hnew, app_nil_r.
    + apply saved_store_conserves.
  - destruct (is_empty (cycle_new w st)); [done|apply saved_store_archive_grows].
  - unfold cycle_new. destruct (site w) as [current|e]; [|by intros notice ?%elem_of_nil].
    intros notice Hin. exists current. split; [done|].
    destruct (stored (data_file st)) as [|s saved]; [done|].
    rewrite find_new_notices_nonempty in Hin by done.
    by apply list_elem_of_filter in Hin as [_ ?].
Qed.

(** X10.  With a positive window, an active store of at most [max_notices]
    notices has at most [max_notices] notices after any cycle. *)
Theorem monitor_keeps_window (w : world) (self : QFNUJWCGGMonitor) (st : store) :
  0 < max_notices self ->
  (length (stored (data_file st)) <= Z.to_nat (max_notices self))%nat ->
  (length (stored (data_file (state_of (monitor w self st))))
     <= Z.to_nat (max_notices self))%nat.
Proof.
  intros Hmax Hbound. destruct (monitor_run w self st) as (t & ->).
  unfold state_of, cycle_store. cbn [fst snd].
  destruct (is_empty (cycle_new w st)); [done|].
  rewrite saved_store_data by done. cbn [stored]. rewrite length_drop. lia.
Qed.

Lemma monitor_keeps_window_witness :
  0 < max_notices monitor_2
  /\ (length (stored (data_file store_CA)) <= Z.to_nat (max_notices monitor_2))%nat
  /\ (length (stored (data_file (state_of (monitor world_bot_down monitor_2 store_CA))))
        <= Z.to_nat (max_notices monitor_2))%nat.
Proof.
  assert (Hmax : 0 < max_notices monitor_2) by reflexivity.
  assert (Hbound : (length (stored (data_file store_CA))
                      <= Z.to_nat (max_notices monitor_2))%nat) by (vm_compute; lia).
  split_and!; [exact Hmax|exact Hbound|].
  exact (monitor_keeps_window world_bot_down monitor_2 store_CA Hmax Hbound).
Defined.

(** X11.  When the stored notices and the new ones fit the window together,
    a second cycle over the same page changes nothing and announces nothing:
    the store is as the first cycle left it and the trace has neither a write
    nor a transport event. *)
Theorem monitor_second_cycle_silent (w : world) (self : QFNUJWCGGMonitor) (st : store) :
  len (stored (data_file st) ++ cycle_new w st) <= max_notices self ->
  let st1 := state_of (monitor w self st) in
  state_of (monitor w self st1) = st1
  /\ forallb quiet (trace_of (monitor w self st1)) = true.
Proof.
  intros Hfit st1.
  assert (Hst1 : st1 = cycle_store w self st).
  { subst st1. by destruct (monitor_run w self st) as (t & ->). }
  assert (Hsettled : cycle_new w st1 = []).
  { rewrite Hst1. unfold cycle_new at 1.
    rewrite (cycle_store_data_fits w self st Hfit). unfold cycle_new.
    destruct (site w) as [current|e]; [|done].
    destruct current as [|c current]; [by rewrite !find_new_notices_of_nil|].
    by apply find_new_notices_nil; [|apply titles_covered]. }
  destruct (monitor_quiet_run w self st1 Hsettled) as (t & -> & Ht).
  by split.
Qed.

Lemma monitor_second_cycle_silent_witness :
  len (stored (data_file store_A) ++ cycle_new world_ok store_A)
    <= max_notices QFNUJWCGGMonitor_init
  /\ data_file (state_of (monitor world_ok QFNUJWCGGMonitor_init store_A))
     = Dumped [notice_A; notice_B]
  /\ state_of (monitor world_ok QFNUJWCGGMonitor_init
                 (state_of (monitor world_ok QFNUJWCGGMonitor_init store_A)))
     = state_of (monitor world_ok QFNUJWCGGMonitor_init store_A).
Proof.
  assert (Hfit : len (stored (data_file store_A) ++ cycle_new world_ok store_A)
                 <= max_notices QFNUJWCGGMonitor_init) by (by vm_compute).
  split_and!; [exact Hfit|by vm_compute|].
  exact (proj1 (monitor_second_cycle_silent world_ok QFNUJWCGGMonitor_init store_A Hfit)).
Defined.

(** X12.  In a steady-state cycle with new notices, whatever feishu and the
    bot do, each transport is called exactly once, feishu first, and the
    OneBot message is the feishu title, an empty line, and the feishu
    content. *)
Theorem monitor_steady_pushes_once (w : world) (self : QFNUJWCGGMonitor) (st : store)
    (current : list Notice) :
  site w = Return current ->
  stored (data_file st) <> [] ->
  find_new_notices current (stored (data_file st)) <> [] ->
  let new_notices := find_new_notices current (stored (data_file st)) in
  let title := batch_title new_notices in
  let content := batch_body new_notices in
  let t := trace_of (monitor w self st) in
  count is_feishu t = 1%nat
  /\ count is_send_all t = 1%nat
  /\ exists before between after,
       t = before
           ++ EvFeishu title content
           :: between
           ++ EvOnebotSendAll (PStr (title +:+ nl +:+ nl +:+ content)) :: after.
Proof.
  intros Hsite Hsaved Hnew new_notices title content t.
  destruct (monitor_new_run w self st current _ _ Hsite eq_refl eq_refl Hnew)
    as (head & sent & tail & Hrun & Hhead & Hsent & Htail).
  subst t. rewrite Hrun. unfold trace_of. cbn [snd].
  rewrite (is_empty_false _ Hsaved). fold new_notices.
  unfold push_trace. fold title. fold content.
  split_and!.
  - rewrite !count_app. change (EvFeishu title content :: ?l) with ([EvFeishu title content] ++ l).
    rewrite !count_app.
    change (EvOnebotSendAll ?m :: sent) with ([EvOnebotSendAll m] ++ sent).
    rewrite !count_app.
    rewrite (count_none _ _ head quiet_not_feishu Hhead).
    rewrite (count_none _ _ sent sender_not_feishu Hsent).
    rewrite (count_none _ _ tail silent_not_feishu Htail).
    unfold feishu_log. by destruct (feishu_hook w _ _).
  - rewrite !count_app. change (EvFeishu title content :: ?l) with ([EvFeishu title content] ++ l).
    rewrite !count_app.
    change (EvOnebotSendAll ?m :: sent) with ([EvOnebotSendAll m] ++ sent).
    rewrite !count_app.
    rewrite (count_none _ _ head quiet_not_send_all Hhead).
    rewrite (count_none _ _ sent sender_not_send_all Hsent).
    rewrite (count_none _ _ tail silent_not_send_all Htail).
    unfold feishu_log. by destruct (feishu_hook w _ _).
  - exists head, (feishu_log w new_notices), (sent ++ tail).
    rewrite batch_message_eq. fold title. fold content.
    cbn [app]. by rewrite <- app_assoc.
Qed.

Lemma monitor_steady_pushes_once_witness :
  site world_ok = Return [notice_A; notice_B]
  /\ find_new_notices [notice_A; notice_B] (stored (data_file store_A)) = [notice_B]
  /\ count is_feishu (trace_of (monitor world_ok QFNUJWCGGMonitor_init store_A)) = 1%nat
  /\ count is_send_all (trace_of (monitor world_ok QFNUJWCGGMonitor_init store_A)) = 1%nat.
Proof.
  assert (Hnew : find_new_notices [notice_A; notice_B] (stored (data_file store_A))
                 = [notice_B]) by (by vm_compute).
  split_and!; [reflexivity|exact Hnew|..].
  - refine (proj1 (monitor_steady_pushes_once world_ok QFNUJWCGGMonitor_init store_A
                     [notice_A; notice_B] eq_refl _ _)); [discriminate|].
    rewrite Hnew. discriminate.
  - refine (proj1 (proj2 (monitor_steady_pushes_once world_ok QFNUJWCGGMonitor_init
                            store_A [notice_A; notice_B] eq_refl _ _))); [discriminate|].
    rewrite Hnew. discriminate.
Defined.

(** * The text of a notification *)

Lemma format_notices_from (i : nat) (notices : list Notice) :
  format_notices i (i + length notices - 1) notices
  = String.concat (nl +:+ nl) (entries i notices).
Proof.
  revert i. induction notices as [|x rest IH]; intros i; [done|].
  destruct rest as [|y rest']; cbn [format_notices entries length].
  - replace (i + 1 - 1)%nat with i by lia. rewrite Nat.eqb_refl.
    cbn [format_notices String.concat]. unfold entry.
    by rewrite !string_app_assoc, string_app_nil_r.
  - replace (i =? i + Datatypes.S (Datatypes.S (length rest')) - 1)%nat with false
      by (symmetry; apply Nat.eqb_neq; lia).
    replace (i + Datatypes.S (Datatypes.S (length rest')) - 1)%nat
      with (Datatypes.S i + length (y :: rest') - 1)%nat by (simpl; lia).
    cbn [format_notices] in IH. rewrite IH. cbn [entries String.concat]. unfold entry.
    by rewrite !string_app_assoc.
Qed.

(** X13.  The numbered text both push methods build is the entries, numbered
    from 1 in the order given, joined by one empty line: no separator before
    the first or after the last entry, and the empty string for no notice. *)
Theorem format_notices_join (notices : list Notice) :
  format_notices 1 (length notices) notices
  = String.concat (nl +:+ nl) (entries 1 notices).
Proof.
  rewrite <- format_notices_from. f_equal. lia.
Qed.

(** * More on the OneBot sender *)

Section SenderReplies.
Context {S : Type}.
Variable w : world.

Lemma send_group_message_unfold self group_id message (s : S) :
  truthy (onebot_url self) = true ->
  send_group_message w self group_id message s =
    match http_post w (api_url self) (_build_headers self) (payload group_id message) with
    | Raise e =>
        (Raise unbound_result, s,
         [EvHttpPost (api_url self) (_build_headers self) (payload group_id message)])
    | Return r =>
        match json r with
        | Raise e =>
            (Raise unbound_result, s,
             [EvHttpPost (api_url self) (_build_headers self) (payload group_id message);
              EvLog INFO "OneBot消息发送响应: {response.text}" [PStr (text r)]])
        | Return (PDict d) =>
            if py_eq_str (default PNone (d !! "status")) "ok" then
              (Return d, s,
               [EvHttpPost (api_url self) (_build_headers self) (payload group_id message);
                EvLog INFO "OneBot消息发送响应: {response.text}" [PStr (text r)];
                EvLog INFO "OneBot消息发送成功 - 群组: {group_id}" [PStr group_id]])
            else
              (Return {["error" := default (PStr "未知错误") (d !! "message")]}, s,
               [EvHttpPost (api_url self) (_build_headers self) (payload group_id message);
                EvLog INFO "OneBot消息发送响应: {response.text}" [PStr (text r)];
                EvLog ERROR
                  "OneBot消息发送失败 - 群组: {group_id}, 错误: {error_msg}，响应内容: {result}"
                  [PStr group_id; default (PStr "未知错误") (d !! "message"); PDict d]])
        | Return v =>
            let error_msg :=
              "未知错误: " +:+ "'" +:+ type_name v +:+ "' object has no attribute 'get'" in
            (Return {["error" := PStr error_msg]}, s,
             [EvHttpPost (api_url self) (_build_headers self) (payload group_id message);
              EvLog INFO "OneBot消息发送响应: {response.text}" [PStr (text r)];
              EvLog ERROR
                "OneBot消息发送失败 - 群组: {group_id}, {error_msg}，响应内容: {result}"
                [PStr group_id; PStr error_msg; v]])
        end
    end.
Proof.
  intros Hurl. unfold send_group_message. rewrite Hurl.
  cbv beta iota zeta delta [negb]. fold (api_url self). fold (payload group_id message).
  unfold requests_post. unfold with_frame, try_except, bind, emit.
  destruct (http_post w _ _ _) as [[body [v|e]]|e]; simpl.
  - destruct v as [| | | | |d]; try reflexivity.
    by destruct (py_eq_str _ _).
  - destruct (is_RequestException e), (is_JSONDecodeError e); reflexivity.
  - destruct (is_RequestException e), (is_JSONDecodeError e); reflexivity.
Qed.
End SenderReplies.

Lemma bind_inv {S A B} (c : M S A) (k : A -> M S B) s b s' t :
  bind c k s = (Return b, s', t) ->
  exists a s1 t1 t2,
    c s = (Return a, s1, t1) /\ k a s1 = (Return b, s', t2) /\ t = t1 ++ t2.
Proof.
  unfold bind. destruct (c s) as [[[a|e] s1] t1]; [|done].
  destruct (k a s1) as [[r s2] t2] eqn:Hk. intros [= -> -> <-].
  by exists a, s1, t1, t2.
Qed.

Section SenderFanOut.
Context {S : Type}.
Variable w : world.

(** X14.  When the endpoint's reply parses as JSON, [send_group_message]
    returns without raising and leaves the caller's state alone: it returns
    the reply itself for an object with [status == "ok"], [{"error": m}] for
    an object with any other or no status, where [m] is its ["message"] or
    the default text, and an error dict naming the [AttributeError] when the
    JSON is not an object. *)
Theorem send_group_message_on_reply (self : OneBotSender) (group_id : string)
    (message : pyval) (s : S) (r : response) (v : pyval) :
  truthy (onebot_url self) = true ->
  http_post w (api_url self) (_build_headers self) (payload group_id message) = Return r ->
  json r = Return v ->
  state_of (send_group_message w self group_id message s) = s
  /\ result_of (send_group_message w self group_id message s) =
       Return
         match v with
         | PDict d =>
             if py_eq_str (default PNone (d !! "status")) "ok" then d
             else {["error" := default (PStr "未知错误") (d !! "message")]}
         | _ =>
             {["error" :=
                 PStr ("未知错误: '" +:+ type_name v +:+ "' object has no attribute 'get'")]}
         end.
Proof.
  intros Hurl Hpost Hjson. rewrite send_group_message_unfold by done.
  rewrite Hpost, Hjson.
  destruct v as [| | | | |d]; try done. by destruct (py_eq_str _ _).
Qed.

(** X15.  When the POST raises, or the reply's body does not parse as JSON,
    [send_group_message] raises [UnboundLocalError] (the handlers read the
    local [result] before any assignment to it); the caller's state is
    untouched. *)
Theorem send_group_message_unbound (self : OneBotSender) (group_id : string)
    (message : pyval) (s : S) (e : exn) :
  truthy (onebot_url self) = true ->
  http_post w (api_url self) (_build_headers self) (payload group_id message) = Raise e
  \/ (exists r,
        http_post w (api_url self) (_build_headers self) (payload group_id message)
          = Return r
        /\ json r = Raise e) ->
  result_of (send_group_message w self group_id message s) = Raise unbound_result
  /\ state_of (send_group_message w self group_id message s) = s.
Proof.
  intros Hurl Hfail. rewrite send_group_message_unfold by done.
  destruct Hfail as [->|(r & -> & ->)]; done.
Qed.

(** X16.  That exception ends the fan-out: when the POST for the first
    target group raises, [send_to_all_groups] raises after that one POST, no
    other group is tried, and [onebot_send_all] reports the
    [UnboundLocalError] as its error instead of a summary. *)
Theorem send_to_all_groups_stops (self : OneBotSender) (message : pyval) (s : S)
    (group_id : string) (rest : list string) (e : exn) :
  truthy (onebot_url self) = true ->
  target_groups self = group_id :: rest ->
  http_post w (api_url self) (_build_headers self) (payload group_id message) = Raise e ->
  send_to_all_groups w self message s =
    (Raise unbound_result, s,
     [EvHttpPost (api_url self) (_build_headers self) (payload group_id message)]).
Proof.
  intros Hurl Hgroups Hpost. unfold send_to_all_groups. rewrite Hgroups.
  cbn [is_empty send_loop]. apply bind_Raise. apply bind_Raise.
  rewrite send_group_message_unfold by done. by rewrite Hpost.
Qed.

Lemma send_loop_inv self message groups results success_count (s s' : S)
    results' success_count' t :
  send_loop w self message groups results success_count s
    = (Return (results', success_count'), s', t) ->
  success_count <= success_count' <= success_count + len groups
  /\ dom results' = dom results ∪ list_to_set groups.
Proof.
  revert results success_count s t.
  induction groups as [|g groups IH]; intros results success_count s t.
  - intros [= -> -> _ _]. unfold len. simpl. split; [lia|]. set_solver.
  - cbn [send_loop]. intros (result & s1 & t1 & t2 & _ & Hrest & _)%bind_inv.
    apply IH in Hrest as [Hcount Hdom]. split.
    + unfold len in *. cbn [length]. destruct (negb _); lia.
    + rewrite Hdom, dom_insert_L. set_solver.
Qed.

(** X17.  When [send_to_specific_groups] returns for a non-empty list, what
    it returns is a summary: [total_groups] is the length of the list, the
    success count lies between 0 and that length, [failed_count] is the
    difference, and [results] has exactly the given group ids as keys. *)
Theorem send_to_specific_groups_summary (self : OneBotSender) (group_ids : list string)
    (message : pyval) (s : S) (d : gmap string pyval) :
  group_ids <> [] ->
  result_of (send_to_specific_groups w self group_ids message s) = Return d ->
  exists results success_count,
    d = summary group_ids results success_count
    /\ 0 <= success_count <= len group_ids
    /\ dom results = list_to_set group_ids
    /\ d !! "total_groups" = Some (PInt (len group_ids))
    /\ d !! "success_count" = Some (PInt success_count)
    /\ d !! "failed_count" = Some (PInt (len group_ids - success_count))
    /\ d !! "results" = Some (PDict results).
Proof.
  intros Hne. unfold send_to_specific_groups. rewrite (is_empty_false _ Hne).
  destruct (bind _ _ s) as [[r s'] t] eqn:Hrun. unfold result_of. cbn [fst].
  intros ->. apply bind_inv in Hrun as ([results sc] & s1 & t1 & t2 & Hloop & Hk & _).
  apply send_loop_inv in Hloop as [Hcount Hdom].
  apply bind_inv in Hk as (_ & _ & _ & _ & _ & [= <- _ _] & _).
  exists results, sc. split_and!; try done; try lia.
  rewrite Hdom. set_solver.
Qed.
End SenderFanOut.

Lemma send_group_message_on_reply_witness :
  truthy (onebot_url sender_2) = true
  /\ json ok_reply = Return (PDict (<["status" := PStr "ok"]> (<["retcode" := PInt 0]> ∅)))
  /\ result_of (send_group_message world_ok sender_2 "111" (PStr "hello") tt)
     = Return (<["status" := PStr "ok"]> (<["retcode" := PInt 0]> ∅)).
Proof.
  split_and!; [reflexivity|reflexivity|].
  exact (proj2 (send_group_message_on_reply world_ok sender_2 "111" (PStr "hello") tt
                  ok_reply _ eq_refl eq_refl eq_refl)).
Defined.

Lemma send_group_message_unbound_witness :
  truthy (onebot_url sender_1) = true
  /\ http_post world_bot_down (api_url sender_1) (_build_headers sender_1)
       (payload "123456" (PStr "hello")) = Raise connection_refused
  /\ result_of (send_group_message world_bot_down sender_1 "123456" (PStr "hello") tt)
     = Raise unbound_result.
Proof.
  split_and!; [reflexivity|reflexivity|].
  exact (proj1 (send_group_message_unbound world_bot_down sender_1 "123456" (PStr "hello")
                  tt connection_refused eq_refl (or_introl eq_refl))).
Defined.

Lemma send_to_all_groups_stops_witness :
  truthy (onebot_url sender_2) = true
  /\ target_groups sender_2 = ["111"; "222"]
  /\ result_of (send_to_all_groups world_bot_down sender_2 (PStr "hello") tt)
     = Raise unbound_result
  /\ count is_post (trace_of (send_to_all_groups world_bot_down sender_2 (PStr "hello") tt))
     = 1%nat.
Proof.
  split_and!; [reflexivity|reflexivity|..];
    by rewrite (send_to_all_groups_stops world_bot_down sender_2 (PStr "hello") tt
                  "111" ["222"] connection_refused eq_refl eq_refl eq_refl).
Defined.

Lemma send_to_specific_groups_summary_witness :
  ["111"; "222"] <> []
  /\ exists d,
       result_of (send_to_specific_groups world_ok sender_2 ["111"; "222"] (PStr "hello") tt)
         = Return d
       /\ d !! "total_groups" = Some (PInt 2).
Proof.
  assert (Hne : ["111"; "222"] <> ([] : list string)) by discriminate.
  split; [exact Hne|].
  destruct (result_of (send_to_specific_groups world_ok sender_2 ["111"; "222"]
                         (PStr "hello") tt)) as [d|e] eqn:Hrun; [|by vm_compute in Hrun].
  exists d. split; [reflexivity|].
  destruct (send_to_specific_groups_summary world_ok sender_2 ["111"; "222"] (PStr "hello")
              tt d Hne Hrun) as (results & sc & _ & _ & _ & Htotal & _).
  exact Htotal.
Defined.

Section SenderUniform.
Context {S : Type}.
Variable w : world.
Variable self : OneBotSender.
Variable message : pyval.
Variable body : string.
Variable d : gmap string pyval.
Hypothesis Hurl : truthy (onebot_url self) = true.
Hypothesis Hpost : forall group_id,
  http_post w (api_url self) (_build_headers self) (payload group_id message)
  = Return {| text := body; json := Return (PDict d) |}.

Lemma send_group_message_uniform (group_id : string) (s : S) :
  exists t,
    send_group_message w self group_id message s = (Return (answer d), s, t)
    /\ count is_post t = 1%nat.
Proof.
  rewrite send_group_message_unfold by done. rewrite Hpost. cbn [json]. unfold answer.
  destruct (py_eq_str _ _); by eexists.
Qed.

Lemma send_loop_uniform (groups : list string) (results : gmap string pyval)
    (success_count : Z) (s : S) :
  exists results' t,
    send_loop w self message groups results success_count s =
      (Return (results',
               success_count + (if has_key "error" (answer d) then 0 else len groups)),
       s, t)
    /\ count is_post t = length groups
    /\ forall g, results' !! g
                 = if decide (g ∈ groups) then Some (PDict (answer d)) else results !! g.
Proof.
  revert results success_count.
  induction groups as [|g0 groups IH]; intros results success_count.
  - exists results, []. split_and!; [|done|done].
    cbn [send_loop]. unfold ret.
    replace (success_count + (if has_key "error" (answer d) then 0 else len []))
      with success_count by (destruct (has_key _ _); unfold len; simpl; lia).
    done.
  - destruct (send_group_message_uniform g0 s) as (t1 & Hsend & Ht1).
    set (sc1 := if negb (has_key "error" (answer d))
                then success_count + 1 else success_count).
    destruct (IH (<[g0 := PDict (answer d)]> results) sc1)
      as (results' & t2 & Hloop & Ht2 & Hres).
    exists results', (t1 ++ t2). split_and!.
    + cbn [send_loop]. rewrite (bind_Return _ _ _ _ _ _ Hsend). fold sc1. rewrite Hloop.
      unfold result_of, state_of, trace_of. cbn [fst snd].
      replace (sc1 + (if has_key "error" (answer d) then 0 else len groups))
        with (success_count
              + (if has_key "error" (answer d) then 0 else len (g0 :: groups)))
        by (subst sc1; unfold len; cbn [length]; destruct (has_key _ _); simpl; lia).
      done.
    + rewrite count_app, Ht1, Ht2. done.
    + intros g. rewrite Hres.
      destruct (decide (g = g0)) as [->|Hne].
      * rewrite lookup_insert_eq.
        destruct (decide (g0 ∈ g0 :: groups)) as [_|Hn];
          [by destruct (decide (g0 ∈ groups))|].
        exfalso. apply Hn. by left.
      * rewrite lookup_insert_ne by done.
        destruct (decide (g ∈ groups)) as [Hin|Hin];
          destruct (decide (g ∈ g0 :: groups)) as [Hin'|Hin']; try done.
        -- exfalso. apply Hin'. by right.
        -- exfalso. apply Hin. by apply elem_of_cons in Hin' as [|].
Qed.
End SenderUniform.

(** X18.  When the endpoint answers every POST with the same JSON object,
    the fan-out posts once per listed group and returns a summary in which
    every listed group maps to the same per-group result; the success count
    is the number of listed groups if that result has no ["error"] key (an
    object with [status == "ok"] and no ["error"] field of its own), and 0
    otherwise. *)
Theorem send_to_specific_groups_uniform {S : Type} (w : world) (self : OneBotSender)
    (group_ids : list string) (message : pyval) (s : S) (body : string)
    (d : gmap string pyval) :
  truthy (onebot_url self) = true ->
  group_ids <> [] ->
  (forall group_id,
     http_post w (api_url self) (_build_headers self) (payload group_id message)
     = Return {| text := body; json := Return (PDict d) |}) ->
  let r := send_to_specific_groups w self group_ids message s in
  exists results,
    result_of r =
      Return (summary group_ids results
                (if has_key "error" (answer d) then 0 else len group_ids))
    /\ (forall g, g ∈ group_ids -> results !! g = Some (PDict (answer d)))
    /\ count is_post (trace_of r) = length group_ids
    /\ state_of r = s.
Proof.
  intros Hurl Hne Hpost r.
  destruct (send_loop_uniform w self message body d Hurl Hpost group_ids ∅ 0 s)
    as (results & t & Hloop & Ht & Hres).
  exists results. subst r. unfold send_to_specific_groups.
  rewrite (is_empty_false _ Hne), (bind_Return _ _ _ _ _ _ Hloop).
  unfold result_of, state_of, trace_of. cbn [fst snd]. split_and!.
  - done.
  - intros g Hg. rewrite Hres. by destruct (decide (g ∈ group_ids)).
  - rewrite count_app, Ht. unfold count. simpl. lia.
  - done.
Qed.

Lemma send_to_specific_groups_uniform_witness :
  truthy (onebot_url sender_2) = true
  /\ ["111"; "222"] <> ([] : list string)
  /\ (exists results,
        result_of (send_to_specific_groups world_failed sender_2 ["111"; "222"]
                     (PStr "hello") tt)
        = Return (summary ["111"; "222"] results 0))
  /\ count is_post
       (trace_of (send_to_specific_groups world_failed sender_2 ["111"; "222"]
                    (PStr "hello") tt)) = 2%nat.
Proof.
  assert (Hne : ["111"; "222"] <> ([] : list string)) by discriminate.
  destruct (send_to_specific_groups_uniform world_failed sender_2 ["111"; "222"]
              (PStr "hello") tt "{...}"
              (<["status" := PStr "failed"]> (<["message" := PStr "group not found"]> ∅))
              eq_refl Hne (fun _ => eq_refl))
    as (results & Hres & _ & Hposts & _).
  split_and!; [reflexivity|exact Hne|by exists results|exact Hposts].
Defined.

(** * The two convenience functions *)

Lemma try_inv {S A} (c : M S A) (h : exn -> M S A) s a s' t :
  try_except c h s = (Return a, s', t) ->
  c s = (Return a, s', t)
  \/ exists e s1 t1 t2, c s = (Raise e, s1, t1) /\ h e s1 = (Return a, s', t2).
Proof.
  unfold try_except. destruct (c s) as [[[a0|e] s1] t1]; [by left|].
  destruct (h e s1) as [[r s2] t2] eqn:Hh. intros [= -> -> <-].
  right. by exists e, s1, t1, t2.
Qed.

Section Wrappers.
Context {S : Type}.
Variable w : world.

Lemma summary_keys (groups : list string) (results : gmap string pyval) (sc : Z) :
  has_key "success_count" (summary groups results sc) = true.
Proof. done. Qed.

Lemma send_to_all_groups_keys self message (s s' : S) d t :
  send_to_all_groups w self message s = (Return d, s', t) ->
  has_key "error" d || has_key "success_count" d = true.
Proof.
  unfold send_to_all_groups. destruct (is_empty _).
  - by intros [= <- _ _].
  - intros ([results sc] & s1 & t1 & t2 & _ & Hk & _)%bind_inv.
    apply bind_inv in Hk as (_ & _ & _ & _ & _ & [= <- _ _] & _).
    by rewrite summary_keys, orb_true_r.
Qed.

Lemma send_to_specific_groups_keys self group_ids message (s s' : S) d t :
  send_to_specific_groups w self group_ids message s = (Return d, s', t) ->
  has_key "error" d || has_key "success_count" d = true.
Proof.
  unfold send_to_specific_groups. destruct (is_empty _).
  - by intros [= <- _ _].
  - intros ([results sc] & s1 & t1 & t2 & _ & Hk & _)%bind_inv.
    apply bind_inv in Hk as (_ & _ & _ & _ & _ & [= <- _ _] & _).
    by rewrite summary_keys, orb_true_r.
Qed.

(** X19.  Neither convenience function ever raises, whatever the
    environment and the endpoint do: each returns a dict that has the key
    ["error"] or the key ["success_count"], leaves the caller's state alone,
    and emits nothing but log records and POSTs. *)
Theorem onebot_wrappers_never_raise (message : pyval) (group_ids : list string) (s : S) :
  (exists d t,
     onebot_send_all w message s = (Return d, s, EvOnebotSendAll message :: t)
     /\ forallb log_or_post t = true
     /\ has_key "error" d || has_key "success_count" d = true)
  /\ (exists d t,
        onebot_send_groups w group_ids message s = (Return d, s, t)
        /\ forallb log_or_post t = true
        /\ has_key "error" d || has_key "success_count" d = true).
Proof.
  split.
  - destruct (onebot_send_all_trace w message s) as (d & t & Hrun & Ht).
    exists d, t. split_and!; [done|done|].
    unfold onebot_send_all in Hrun.
    apply bind_inv in Hrun as (_ & s1 & t1 & t2 & _ & Hbody & _).
    apply try_inv in Hbody as [Hok|(e & s2 & t3 & t4 & _ & Hh)].
    + apply bind_inv in Hok as (sender & s2 & t3 & t4 & _ & Hsend & _).
      by eapply send_to_all_groups_keys.
    + by apply bind_inv in Hh as (_ & _ & _ & _ & _ & [= <- _ _] & _).
  - set (body := bind (S:=S) (OneBotSender_init w)
                   (fun sender => send_to_specific_groups w sender group_ids message)).
    set (handler := fun e : exn =>
           let error_msg := "OneBot发送失败: " +:+ exn_str e in
           bind (S:=S) (log ERROR error_msg [])
             (fun _ => ret ({["error" := PStr error_msg]} : gmap string pyval))).
    assert (Hst : stable id (try_except body handler)).
    { apply stable_try.
      - apply stable_bind; [apply OneBotSender_init_stable|].
        intros sender. apply send_to_specific_groups_stable.
      - intros e. subst handler. step_runs. }
    assert (Hnr : never_raises (try_except body handler)).
    { apply never_raises_try. intros e. subst handler. step_runs. }
    assert (Htr : emits_only log_or_post (try_except body handler)).
    { apply emits_only_try.
      - apply emits_only_bind; [apply OneBotSender_init_trace|].
        intros sender. apply send_to_specific_groups_trace.
      - intros e. subst handler. step_trace. }
    specialize (Hst s). specialize (Hnr s). specialize (Htr s).
    change (onebot_send_groups w group_ids message s) with (try_except body handler s).
    destruct (try_except body handler s) as [[[d|e] s1] t] eqn:Hrun; [|done].
    unfold state_of, trace_of in *. simpl in Hst, Htr. subst s1.
    exists d, t. split_and!; [done|done|].
    apply try_inv in Hrun as [Hok|(e & s2 & t3 & t4 & _ & Hh)].
    + apply bind_inv in Hok as (sender & s2 & t3 & t4 & _ & Hsend & _).
      by eapply send_to_specific_groups_keys.
    + subst handler.
      by apply bind_inv in Hh as (_ & _ & _ & _ & _ & [= <- _ _] & _).
Qed.
End Wrappers.

(** * Stripping and splitting *)

Section Strip.
Variable p : ascii -> bool.








End Strip.






(** * Request headers *)

(** X21.  The request headers always carry [Content-Type] and [User-Agent];
    [Authorization] is there exactly when a non-empty access token is
    configured, as [Bearer] followed by the token; there is no other
    header. *)
Theorem build_headers_lookup (self : OneBotSender) :
  _build_headers self !! "Content-Type" = Some "application/json"
  /\ _build_headers self !! "User-Agent" = Some "QFNU-Monitor/1.0"
  /\ _build_headers self !! "Authorization" =
       match access_token self with
       | Some token => if str_is_empty token then None else Some ("Bearer " +:+ token)
       | None => None
       end
  /\ dom (_build_headers self)
       ⊆ ({["Content-Type"; "User-Agent"; "Authorization"]} : gset string).
Proof.
  unfold _build_headers, truthy.
  destruct (access_token self) as [[|c token]|]; cbn [str_is_empty negb default];
    (split_and!; [done|done|done|]);
    rewrite ?dom_insert_L, dom_empty_L; set_solver.
Qed.

(** * The extraction loop *)




